(** * WildFireProx: the wildfire proximity pipeline

    A shallow embedding of the data-processing core of the
    [WildfireProximityApp] React component: geocoding, the wildfire and hotspot
    fetchers, the haversine distance, the risk classifier, the session cache
    and the search orchestrator.

    The repository holds three revisions of the component.  They share every
    function modelled here and differ in three places only, which the
    embedding keeps apart by a [Revision] parameter:
    - [RevList]: [src/components/WildfireProximityApp.jsx], first document
      (list view only, four fallback records);
    - [RevHotspot]: the second document of the same file (leaflet map and the
      satellite hotspot feed, three fallback records);
    - [RevMap]: [unnamed/part_000] (list view and an inline map page, four
      fallback records). *)

From Stdlib Require Import ZArith String Ascii List Bool Floats Reals Lra Lia.
From Stdlib Require Import Sorted Permutation.
From stdpp Require Import base option gmap strings pretty.

Import ListNotations.
Local Open Scope string_scope.
Set Warnings "-inexact-float".

(** ** JavaScript values *)

(** The values that travel through the pipeline: JSON scalars.  Numbers are
    IEEE 754 binary64, which is what Rocq's primitive [float] is. *)
Inductive JSValue : Type :=
| JSUndefined
| JSNull
| JSBoolean (b : bool)
| JSNumber (n : float)
| JSString (s : string).

(** An attribute bag: a JS object used as a map from property names to values
    (feature attributes, fire records). *)
Abbreviation JSObject := (gmap string JSValue).

(** Property read [o.k]: a missing property reads as [undefined]. *)
Definition prop (o : JSObject) (k : string) : JSValue :=
  default JSUndefined (o !! k).

(** [ToBoolean]: [undefined], [null], [false], [+0], [-0], [NaN] and the empty
    string are falsy; everything else is truthy. *)
Definition ToBoolean (v : JSValue) : bool :=
  match v with
  | JSUndefined | JSNull => false
  | JSBoolean b => b
  | JSNumber n => negb (PrimFloat.eqb n 0 || PrimFloat.is_nan n)
  | JSString s => negb (String.eqb s "")
  end.

(** Strict equality [v === "lit"] against a string literal. *)
Definition strictEqString (v : JSValue) (lit : string) : bool :=
  match v with
  | JSString s => String.eqb s lit
  | _ => false
  end.

(** [arr.includes(v)] for an array of string literals. *)
Definition includes (arr : list string) (v : JSValue) : bool :=
  existsb (strictEqString v) arr.

(** ** The host's arithmetic *)

(** The operations [calculateDistance] uses, as an interface: the arithmetic
    of JS numbers and the functions of the [Math] object.  It has two
    instances below: binary64 floats (what the program runs on) and the real
    numbers (the arithmetic the floats approximate). *)
Class JSArith (num : Type) : Type := {
  num_lit : Z -> num;
  num_add : num -> num -> num;
  num_sub : num -> num -> num;
  num_mul : num -> num -> num;
  num_div : num -> num -> num;
  Math_PI : num;
  Math_sin : num -> num;
  Math_cos : num -> num;
  Math_sqrt : num -> num;
  Math_atan2 : num -> num -> num
}.

Declare Scope jsnum_scope.
Delimit Scope jsnum_scope with jsnum.
Notation "x + y" := (num_add x y) : jsnum_scope.
Notation "x - y" := (num_sub x y) : jsnum_scope.
Notation "x * y" := (num_mul x y) : jsnum_scope.
Notation "x / y" := (num_div x y) : jsnum_scope.

(** What the browser supplies and the source leaves unspecified: the
    transcendental functions of [Math] on floats, and the conversions between
    numbers and strings. *)
Class Host : Type := {
  host_sin : float -> float;
  host_cos : float -> float;
  host_atan2 : float -> float -> float;
  StringToNumber : string -> float;
  NumberToString : float -> string
}.

(** Integer literals as floats. *)
Definition float_of_Z (z : Z) : float :=
  match z with
  | Z0 => 0%float
  | Zpos _ => PrimFloat.of_uint63 (Uint63.of_Z z)
  | Zneg p => PrimFloat.opp (PrimFloat.of_uint63 (Uint63.of_Z (Zpos p)))
  end.

#[export] Instance float_arith `{Host} : JSArith float := {
  num_lit := float_of_Z;
  num_add := PrimFloat.add;
  num_sub := PrimFloat.sub;
  num_mul := PrimFloat.mul;
  num_div := PrimFloat.div;
  Math_PI := 0x1.921fb54442d18p+1%float;
  Math_sin := host_sin;
  Math_cos := host_cos;
  Math_sqrt := PrimFloat.sqrt;
  Math_atan2 := host_atan2
}.

(** The two-argument arctangent on the reals, by quadrant. *)
Definition Ratan2 (y x : R) : R :=
  if Rlt_dec 0 x then atan (y / x)
  else if Rlt_dec x 0 then
         if Rle_dec 0 y then (atan (y / x) + PI)%R else (atan (y / x) - PI)%R
       else if Rlt_dec 0 y then (PI / 2)%R
            else if Rlt_dec y 0 then (- PI / 2)%R else 0%R.

#[export] Instance real_arith : JSArith R := {
  num_lit := IZR;
  num_add := Rplus;
  num_sub := Rminus;
  num_mul := Rmult;
  num_div := Rdiv;
  Math_PI := PI;
  Math_sin := sin;
  Math_cos := cos;
  Math_sqrt := sqrt;
  Math_atan2 := Ratan2
}.

(** ** Distance calculator *)

Section Distance.
Context {num : Type} `{JSArith num}.
Local Open Scope jsnum_scope.

(** [calculateDistance]: the haversine formula, Earth radius 6371 km. *)
Definition calculateDistance (lat1 lon1 lat2 lon2 : num) : num :=
  let R := num_lit 6371 in
  let dLat := ((lat2 - lat1) * Math_PI) / num_lit 180 in
  let dLon := ((lon2 - lon1) * Math_PI) / num_lit 180 in
  let a :=
    Math_sin (dLat / num_lit 2) * Math_sin (dLat / num_lit 2) +
    Math_cos ((lat1 * Math_PI) / num_lit 180) *
      Math_cos ((lat2 * Math_PI) / num_lit 180) *
      Math_sin (dLon / num_lit 2) *
      Math_sin (dLon / num_lit 2) in
  let c := num_lit 2 * Math_atan2 (Math_sqrt a) (Math_sqrt (num_lit 1 - a)) in
  R * c.
End Distance.

(** ** Risk classifier *)

(** The object [getRiskLevel] returns. *)
Record RiskLevel : Type := mkRisk { level : string; color : string }.

Definition getRiskLevel (distance : float) (status : JSValue) : RiskLevel :=
  (* the statements after the [if (status === "OC")] block *)
  let after_block :=
    if (strictEqString status "BH" || strictEqString status "OC")
       && PrimFloat.ltb distance 100
    then mkRisk "LOW RISK" "text-yellow-800 bg-yellow-100 border-yellow-300"
    else mkRisk "MINIMAL RISK" "text-green-800 bg-green-100 border-green-300" in
  if strictEqString status "OC" then
    if PrimFloat.ltb distance 10 then
      mkRisk "EXTREME RISK" "text-red-900 bg-red-200 border-red-400"
    else if PrimFloat.ltb distance 25 then
      mkRisk "HIGH RISK" "text-red-800 bg-red-100 border-red-300"
    else if PrimFloat.ltb distance 50 then
      mkRisk "MODERATE RISK" "text-orange-800 bg-orange-100 border-orange-300"
    else after_block
  else after_block.

(** [getStatusText]: the display name of a status code. *)
Definition getStatusText (status : JSValue) : string :=
  if strictEqString status "OC" then "Out-of-Control"
  else if strictEqString status "BH" then "Being Held"
  else if strictEqString status "UC" then "Under Control"
  else if strictEqString status "O" then "Out"
  else "Unknown".

(** ** Conversions *)

Section Conversions.
Context `{Host}.

(** [ToNumber], as the arithmetic operators apply it to their operands. *)
Definition ToNumber (v : JSValue) : float :=
  match v with
  | JSUndefined => PrimFloat.nan
  | JSNull => 0%float
  | JSBoolean b => if b then 1%float else 0%float
  | JSNumber n => n
  | JSString s => StringToNumber s
  end.

(** [ToString], as a template literal applies it to an interpolated value. *)
Definition ToString (v : JSValue) : string :=
  match v with
  | JSUndefined => "undefined"
  | JSNull => "null"
  | JSBoolean b => if b then "true" else "false"
  | JSNumber n => NumberToString n
  | JSString s => s
  end.
End Conversions.

(** [String.prototype.trim] over strings of 8-bit code units: the white space
    and line terminators below 256 are TAB, LF, VT, FF, CR, SP and NBSP. *)
Definition isWhiteSpace (c : ascii) : bool :=
  let n := N_of_ascii c in
  ((9 <=? n) && (n <=? 13) || (n =? 32) || (n =? 160))%N.

Fixpoint trimStart (s : string) : string :=
  match s with
  | String c s' => if isWhiteSpace c then trimStart s' else s
  | EmptyString => EmptyString
  end.

Fixpoint trimEnd (s : string) : string :=
  match s with
  | String c s' =>
      match trimEnd s' with
      | EmptyString => if isWhiteSpace c then EmptyString else String c EmptyString
      | t => String c t
      end
  | EmptyString => EmptyString
  end.

Definition trim (s : string) : string := trimEnd (trimStart s).

(** ** The world the component runs in *)

(** The three revisions of the component in the repository. *)
Inductive Revision : Type := RevList | RevHotspot | RevMap.

(** The network calls the component can issue. *)
Inductive Request : Type :=
| GeocodeRequest (singleLine : string)
| WildfireRequest
| HotspotRequest.

(** What [response.json()] yields: the parsed body, or a parse failure. *)
Inductive Body (A : Type) : Type :=
| InvalidJson (message : string)
| Json (data : A).
Arguments InvalidJson {A} message.
Arguments Json {A} data.

(** What [fetch] settles to: a rejection (transport error) or a response. *)
Inductive Reply (A : Type) : Type :=
| NetworkError (message : string)
| HttpResponse (status : Z) (body : Body A).
Arguments NetworkError {A} message.
Arguments HttpResponse {A} status body.

Record Response (A : Type) : Type := mkResponse { status : Z; body : Body A }.
Arguments mkResponse {A} status body.
Arguments status {A} r.
Arguments body {A} r.

(** [response.ok]: the status is in the range 200-299. *)
Definition ok {A} (r : Response A) : bool :=
  ((200 <=? status r) && (status r <=? 299))%Z.

(** The geocoder's JSON: [{candidates: [{location: {x, y}, score, address}]}]. *)
Record Point : Type := mkPoint { x : JSValue; y : JSValue }.
Record Candidate : Type :=
  mkCandidate { location : Point; score : JSValue; cand_address : JSValue }.
Record GeocodeData : Type := mkGeocodeData { candidates : option (list Candidate) }.

(** A feature service's JSON:
    [{features: [{attributes: {...}, geometry: {x, y}}], error?: {message}}]. *)
Record Feature : Type :=
  mkFeature { attributes : JSObject; geometry : option Point }.
Record FeatureData : Type :=
  mkFeatureData { data_error : option string; features : option (list Feature) }.

(** The object [geocodeAddress] returns. *)
Record Location : Type :=
  mkLocation { lat : JSValue; lng : JSValue; loc_score : JSValue; loc_address : JSValue }.

(** An item of [sessionStorage], as [JSON.parse] reads it back: the cache
    entry [{data, timestamp}] or the hotspot list.  [JSON.stringify] followed
    by [JSON.parse] is the identity on the fire records cached here (they come
    from JSON or from the fallback literals), so the serialised text is not
    modelled.  Storage errors (a full quota, a corrupt item), which the two
    cache functions catch and log, are not modelled either. *)
Inductive StorageItem : Type :=
| CacheItem (data : list JSObject) (timestamp : Z)
| HotspotItem (hotspots : list JSObject).

(** The component's React state, the session storage, the wall clock
    ([Date.now()], epoch milliseconds) and the log of network calls issued. *)
Record World : Type := mkWorld {
  address : string;
  loading : bool;
  results : list JSObject;
  error : string;
  lastUpdated : option Z;
  userLocation : option Location;
  sessionStorage : gmap string StorageItem;
  clock : Z;
  requests : list Request
}.

(** What the outside answers during one run: the replies of the three
    services and the time each call takes to settle. *)
Record Env : Type := mkEnv {
  geocodeReply : string -> Reply GeocodeData;
  wildfireReply : Reply FeatureData;
  hotspotReply : Reply FeatureData;
  latency : Request -> Z
}.

(** ** The effect monad: reader of [Env], state [World], exceptions *)

Inductive Completion (A : Type) : Type :=
| Normal (value : A)
| Throw (message : string).
Arguments Normal {A} value.
Arguments Throw {A} message.

Definition Js (A : Type) : Type := Env -> World -> Completion A * World.

#[export] Instance js_ret : MRet Js := fun A a _ w => (Normal a, w).

#[export] Instance js_bind : MBind Js := fun A B f m env w =>
  match m env w with
  | (Normal a, w') => f a env w'
  | (Throw msg, w') => (Throw msg, w')
  end.

(** [throw new Error(msg)]. *)
Definition throw {A} (msg : string) : Js A := fun _ w => (Throw msg, w).

(** [try { m } catch (err) { handler err.message }]. *)
Definition tryCatch {A} (m : Js A) (handler : string -> Js A) : Js A :=
  fun env w =>
    match m env w with
    | (Normal a, w') => (Normal a, w')
    | (Throw msg, w') => handler msg env w'
    end.

(** [try { m } finally { final }], for a [final] that completes normally. *)
Definition tryFinally {A} (m : Js A) (final : Js unit) : Js A :=
  fun env w =>
    match m env w with
    | (c, w') =>
        match final env w' with
        | (Normal _, w'') => (c, w'')
        | (Throw msg, w'') => (Throw msg, w'')
        end
    end.

Definition modify (f : World -> World) : Js unit := fun _ w => (Normal tt, f w).
Definition gets {A} (f : World -> A) : Js A := fun _ w => (Normal (f w), w).

(** Field updates of the world. *)
Definition withLoading (b : bool) (w : World) : World :=
  mkWorld (address w) b (results w) (error w) (lastUpdated w) (userLocation w)
    (sessionStorage w) (clock w) (requests w).
Definition withResults (r : list JSObject) (w : World) : World :=
  mkWorld (address w) (loading w) r (error w) (lastUpdated w) (userLocation w)
    (sessionStorage w) (clock w) (requests w).
Definition withError (e : string) (w : World) : World :=
  mkWorld (address w) (loading w) (results w) e (lastUpdated w) (userLocation w)
    (sessionStorage w) (clock w) (requests w).
Definition withLastUpdated (t : option Z) (w : World) : World :=
  mkWorld (address w) (loading w) (results w) (error w) t (userLocation w)
    (sessionStorage w) (clock w) (requests w).
Definition withUserLocation (l : option Location) (w : World) : World :=
  mkWorld (address w) (loading w) (results w) (error w) (lastUpdated w) l
    (sessionStorage w) (clock w) (requests w).
Definition withStorage (f : gmap string StorageItem -> gmap string StorageItem)
  (w : World) : World :=
  mkWorld (address w) (loading w) (results w) (error w) (lastUpdated w)
    (userLocation w) (f (sessionStorage w)) (clock w) (requests w).

(** The world once [req] has been sent and has settled: the call is in the
    log and the clock has moved on by the time the call took. *)
Definition issued (env : Env) (req : Request) (w : World) : World :=
  mkWorld (address w) (loading w) (results w) (error w) (lastUpdated w)
    (userLocation w) (sessionStorage w) (clock w + latency env req)%Z
    (requests w ++ [req]).

(** Time passing while the component is idle. *)
Definition elapse (dt : Z) (w : World) : World :=
  mkWorld (address w) (loading w) (results w) (error w) (lastUpdated w)
    (userLocation w) (sessionStorage w) (clock w + dt)%Z (requests w).

(** The state setters of [useState]. *)
Definition setLoading (b : bool) : Js unit := modify (withLoading b).
Definition setResults (r : list JSObject) : Js unit := modify (withResults r).
Definition setError (e : string) : Js unit := modify (withError e).
Definition setLastUpdated (t : option Z) : Js unit := modify (withLastUpdated t).
Definition setUserLocation (l : Location) : Js unit :=
  modify (withUserLocation (Some l)).

(** [sessionStorage.setItem] and [sessionStorage.removeItem]. *)
Definition setItem (key : string) (item : StorageItem) : Js unit :=
  modify (withStorage (insert key item)).
Definition removeItem (key : string) : Js unit :=
  modify (withStorage (delete key)).

(** [Date.now()]. *)
Definition Date_now : Js Z := gets clock.

(** [await fetch(url)]: the call is logged, time passes while it is in
    flight, and the promise resolves to a response or rejects. *)
Definition fetch {A} (req : Request) (reply : Env -> Reply A) : Js (Response A) :=
  fun env w =>
    match reply env with
    | NetworkError msg => (Throw msg, issued env req w)
    | HttpResponse st b => (Normal (mkResponse st b), issued env req w)
    end.

(** [await response.json()]. *)
Definition json {A} (r : Response A) : Js A :=
  match body r with
  | InvalidJson msg => throw msg
  | Json d => mret d
  end.

(** ** Geocoder *)

Definition addressNotFoundMessage : string :=
  "Address not found. Please try a more specific address in Newfoundland & Labrador.".

Definition geocodeAddress (address : string) : Js Location :=
  tryCatch
    (response ← fetch
       (GeocodeRequest (address +:+ ", Newfoundland and Labrador, Canada"))
       (fun env =>
          geocodeReply env (address +:+ ", Newfoundland and Labrador, Canada"));
     if negb (ok response) then
       throw ("HTTP error! status: " +:+ pretty (status response))
     else
       data ← json response;
       match candidates data with
       | Some (c :: _) =>
           mret (mkLocation (y (location c)) (x (location c))
                   (score c) (cand_address c))
       | _ => throw addressNotFoundMessage
       end)
    (fun message => throw ("Geocoding failed: " +:+ message)).

(** ** Wildfire data fetcher *)

(** A JS object literal [{k1: v1, ..., kn: vn}]. *)
Definition object (fields : list (string * JSValue)) : JSObject :=
  list_to_map fields.

Definition fallbackKingston : JSObject :=
  object [("FIREID", JSString "NL-2025-Kingston");
          ("NAME", JSString "Kingston Peninsula Fire");
          ("STATUS", JSString "OC");
          ("LATITUDE", JSNumber 47.75);
          ("LONGITUDE", JSNumber (-53.18));
          ("AREAEST", JSNumber 5000);
          ("FIREDATE", JSNumber 1723334400000);
          ("PROVFIRENUM", JSNumber 301);
          ("REGION", JSString "ET");
          ("DISTRICT", JSString "10");
          ("CAUSE", JSString "Lightning")].

Definition fallbackOchre : JSObject :=
  object [("FIREID", JSString "NL-2025-Ochre");
          ("NAME", JSString "Ochre Pit Cove Area Fire");
          ("STATUS", JSString "OC");
          ("LATITUDE", JSNumber 47.72);
          ("LONGITUDE", JSNumber (-53.25));
          ("AREAEST", JSNumber 1200);
          ("FIREDATE", JSNumber 1723420800000);
          ("PROVFIRENUM", JSNumber 302);
          ("REGION", JSString "ET");
          ("DISTRICT", JSString "10");
          ("CAUSE", JSString "Human")].

Definition fallbackTrinity : JSObject :=
  object [("FIREID", JSString "NL-2025-Trinity");
          ("NAME", JSString "Trinity Bay Fire");
          ("STATUS", JSString "BH");
          ("LATITUDE", JSNumber 47.65);
          ("LONGITUDE", JSNumber (-53.38));
          ("AREAEST", JSNumber 800);
          ("FIREDATE", JSNumber 1723248000000);
          ("PROVFIRENUM", JSNumber 303);
          ("REGION", JSString "ET");
          ("DISTRICT", JSString "11");
          ("CAUSE", JSString "Lightning")].

Definition fallbackLabrador : JSObject :=
  object [("FIREID", JSString "NL-2025-Labrador");
          ("NAME", JSString "Labrador City Area Fire");
          ("STATUS", JSString "UC");
          ("LATITUDE", JSNumber 52.94);
          ("LONGITUDE", JSNumber (-66.91));
          ("AREAEST", JSNumber 2500);
          ("FIREDATE", JSNumber 1723161600000);
          ("PROVFIRENUM", JSNumber 304);
          ("REGION", JSString "LB");
          ("DISTRICT", JSString "20");
          ("CAUSE", JSString "Lightning")].

(** The array the [catch] block of [getWildfireData] returns.  The revision
    with the hotspot feed lists three records, the other two list four. *)
Definition fallbackFires (rev : Revision) : list JSObject :=
  match rev with
  | RevHotspot => [fallbackKingston; fallbackOchre; fallbackTrinity]
  | RevList | RevMap =>
      [fallbackKingston; fallbackOchre; fallbackTrinity; fallbackLabrador]
  end.

Definition degradedMessage : string :=
  "Could not fetch live data. Showing recent examples.".

(** The [map] callback:
    [{...feature.attributes, LATITUDE: geometry ? geometry.y : null,
      LONGITUDE: geometry ? geometry.x : null}]. *)
Definition toFire (feature : Feature) : JSObject :=
  <["LONGITUDE" := match geometry feature with Some g => x g | None => JSNull end]>
    (<["LATITUDE" := match geometry feature with Some g => y g | None => JSNull end]>
       (attributes feature)).

(** The [filter] callback:
    [fire.LATITUDE && fire.LONGITUDE && fire.STATUS &&
     ["OC", "BH", "UC"].includes(fire.STATUS)]. *)
Definition isActiveFire (fire : JSObject) : bool :=
  ToBoolean (prop fire "LATITUDE") &&
  ToBoolean (prop fire "LONGITUDE") &&
  ToBoolean (prop fire "STATUS") &&
  includes ["OC"; "BH"; "UC"] (prop fire "STATUS").

Definition getWildfireData (rev : Revision) : Js (list JSObject) :=
  tryCatch
    (response ← fetch WildfireRequest wildfireReply;
     if negb (ok response) then
       throw ("Wildfire API request failed with status: "
              +:+ pretty (status response))
     else
       data ← json response;
       match data_error data with
       | Some message => throw ("API Error: " +:+ message)
       | None =>
           match features data with
           | Some (f :: fs) => mret (List.filter isActiveFire (map toFire (f :: fs)))
           | _ => mret []
           end
       end)
    (fun _ => setError degradedMessage;; mret (fallbackFires rev)).

(** ** Hotspot fetcher (revision [RevHotspot] only) *)

Section Hotspots.
Context `{Host}.

Definition toHotspot (feature : Feature) : JSObject :=
  let attrs := attributes feature in
  <["isHotspot" := JSBoolean true]>
    (<["STATUS" := prop attrs "confidence"]>
       (<["NAME" := JSString ("Thermal Hotspot ("
                              +:+ ToString (prop attrs "confidence") +:+ ")")]>
          (<["FIREID" := JSString ("hotspot-"
                                   +:+ ToString (prop attrs "OBJECTID"))]>
             (<["LONGITUDE" := prop attrs "longitude"]>
                (<["LATITUDE" := prop attrs "latitude"]> attrs))))).

Definition getHotspotData : Js (list JSObject) :=
  tryCatch
    (response ← fetch HotspotRequest hotspotReply;
     if negb (ok response) then mret []
     else
       data ← json response;
       match data_error data, features data with
       | None, Some fs =>
           mret (List.filter
                   (fun hotspot => ToBoolean (prop hotspot "LATITUDE")
                                   && ToBoolean (prop hotspot "LONGITUDE"))
                   (map toHotspot fs))
       | _, _ => mret []
       end)
    (fun _ => mret []).
End Hotspots.

(** ** Result cache *)

Definition maxAge : Z := 10 * 60 * 1000.

(** [JSON.parse(sessionStorage.getItem("wildfireData") || "{}")], read as the
    two properties [getCachedData] looks at: a missing item parses to [{}],
    and an array has neither property. *)
Definition parseCached (item : option StorageItem)
  : option (list JSObject) * option Z :=
  match item with
  | Some (CacheItem data timestamp) => (Some data, Some timestamp)
  | Some (HotspotItem _) | None => (None, None)
  end.

Definition getCachedData : Js (option (list JSObject)) :=
  item ← gets (fun w => sessionStorage w !! "wildfireData");
  let cached := parseCached item in
  now ← Date_now;
  let cacheAge := (now - default 0 (snd cached))%Z in
  match (cacheAge <? maxAge)%Z, fst cached with
  | true, Some data => setLastUpdated (snd cached);; mret (Some data)
  | _, _ => mret None
  end.

Definition setCachedData (data : list JSObject) : Js unit :=
  timestamp ← Date_now;
  setItem "wildfireData" (CacheItem data timestamp);;
  setLastUpdated (Some timestamp).

(** The body of the [setInterval] callback that fires every ten minutes. *)
Definition autoRefresh (rev : Revision) : Js unit :=
  removeItem "wildfireData";;
  match rev with
  | RevHotspot => removeItem "mapHotspots"
  | RevList | RevMap => mret tt
  end.

(** ** Ranking *)

(** [Array.prototype.sort(comparefn)].  ECMAScript fixes the result for a
    consistent comparator: the stable arrangement in which no element is
    followed by one that compares below it.  That arrangement is unique
    ([sorted_stable_unique] below), so any algorithm that computes it will
    do; the model is insertion sort.  An element moves behind another only
    when the comparator puts it strictly after ([comparefn(a, b) > 0]; a [NaN]
    result counts as [+0]). *)
Section ArraySort.
Context {A : Type} (comparefn : A -> A -> float).

Fixpoint sortInsert (a : A) (sorted : list A) : list A :=
  match sorted with
  | [] => [a]
  | b :: rest =>
      if PrimFloat.ltb 0 (comparefn a b) then b :: sortInsert a rest
      else a :: b :: rest
  end.

Fixpoint Array_sort (l : list A) : list A :=
  match l with
  | [] => []
  | a :: rest => sortInsert a (Array_sort rest)
  end.
End ArraySort.

Section Search.
Context `{Host}.

(** The [distance] property of a ranked record, as a number. *)
Definition distanceOf (a : JSObject) : float := ToNumber (prop a "distance").

(** The comparator [(a, b) => a.distance - b.distance]. *)
Definition byDistance (a b : JSObject) : float :=
  PrimFloat.sub (distanceOf a) (distanceOf b).

(** The [map] callback of the ranking step:
    [{...fire, distance: calculateDistance(location.lat, location.lng,
                                           fire.LATITUDE, fire.LONGITUDE)}]. *)
Definition withDistance (location : Location) (fire : JSObject) : JSObject :=
  <["distance" :=
      JSNumber (calculateDistance
                  (ToNumber (lat location)) (ToNumber (lng location))
                  (ToNumber (prop fire "LATITUDE"))
                  (ToNumber (prop fire "LONGITUDE")))]> fire.

(** [firesWithDistance]: every fire with its distance, nearest first. *)
Definition firesWithDistance (location : Location) (wildfires : list JSObject)
  : list JSObject :=
  Array_sort byDistance (map (withDistance location) wildfires).

Definition invalidInputMessage : string := "Please enter an address".

Definition areaClearMessage : string :=
  "No active wildfires found in the database. Your area is clear.".

(** The body of the [try] block of [searchWildfires].  [address] and [error]
    are the values the closure captured when the component last rendered;
    the setters called meanwhile do not change them. *)
Definition searchBody (rev : Revision) (address error : string) : Js unit :=
  location ← geocodeAddress address;
  match rev with
  | RevList => mret tt
  | RevHotspot | RevMap => setUserLocation location
  end;;
  cached ← getCachedData;
  wildfires ←
    match cached with
    | Some data => mret data
    | None =>
        fresh ← getWildfireData rev;
        setCachedData fresh;;
        mret fresh
    end;
  hotspots ←
    match rev with
    | RevHotspot => getHotspotData
    | RevList | RevMap => mret []
    end;
  if (length wildfires =? 0)%nat then
    setResults [];;
    (if negb (ToBoolean (JSString error)) then setError areaClearMessage
     else mret tt);;
    match rev with
    | RevHotspot =>
        if (0 <? length hotspots)%nat then
          setItem "mapHotspots"
            (HotspotItem (map (withDistance location) hotspots))
        else mret tt
    | RevList | RevMap => mret tt
    end
  else
    setResults (firesWithDistance location wildfires);;
    match rev with
    | RevHotspot =>
        setItem "mapHotspots"
          (HotspotItem (map (withDistance location) hotspots))
    | RevList | RevMap => mret tt
    end.

(** [searchWildfires]: the search button's handler. *)
Definition searchWildfires (rev : Revision) : Js unit :=
  address ← gets address;
  error ← gets error;
  if negb (ToBoolean (JSString (trim address))) then
    setError invalidInputMessage
  else
    setLoading true;;
    setError "";;
    setResults [];;
    tryFinally
      (tryCatch (searchBody rev address error) (fun message => setError message))
      (setLoading false).
End Search.

(** ** The specification's vocabulary *)

(** The status a code stands for, by the cases of [getStatusText]. *)
Inductive Status : Type := OutOfControl | BeingHeld | UnderControl | Out | Unknown.

Definition statusOf (v : JSValue) : Status :=
  if strictEqString v "OC" then OutOfControl
  else if strictEqString v "BH" then BeingHeld
  else if strictEqString v "UC" then UnderControl
  else if strictEqString v "O" then Out
  else Unknown.

(** The display name of a status. *)
Definition statusText (s : Status) : string :=
  match s with
  | OutOfControl => "Out-of-Control"
  | BeingHeld => "Being Held"
  | UnderControl => "Under Control"
  | Out => "Out"
  | Unknown => "Unknown"
  end.

Inductive RiskTier : Type :=
  ExtremeRisk | HighRisk | ModerateRisk | LowRisk | MinimalRisk.

(** The tier a [level] label names. *)
Definition tierOfLevel (label : string) : option RiskTier :=
  if String.eqb label "EXTREME RISK" then Some ExtremeRisk
  else if String.eqb label "HIGH RISK" then Some HighRisk
  else if String.eqb label "MODERATE RISK" then Some ModerateRisk
  else if String.eqb label "LOW RISK" then Some LowRisk
  else if String.eqb label "MINIMAL RISK" then Some MinimalRisk
  else None.

Definition riskTier (distance : float) (status : JSValue) : option RiskTier :=
  tierOfLevel (level (getRiskLevel distance status)).

Definition isStatus (s t : Status) : bool :=
  match s, t with
  | OutOfControl, OutOfControl | BeingHeld, BeingHeld
  | UnderControl, UnderControl | Out, Out | Unknown, Unknown => true
  | _, _ => false
  end.

(** The decision table of section 4.5 of the specification, as a list of
    rules read top to bottom; the first rule whose condition holds decides. *)
Definition riskRules : list ((float -> Status -> bool) * RiskTier) :=
  [ (fun d s => isStatus s OutOfControl && PrimFloat.ltb d 10, ExtremeRisk);
    (fun d s => isStatus s OutOfControl && PrimFloat.ltb d 25, HighRisk);
    (fun d s => isStatus s OutOfControl && PrimFloat.ltb d 50, ModerateRisk);
    (fun d s => (isStatus s OutOfControl || isStatus s BeingHeld)
                && PrimFloat.ltb d 100, LowRisk) ].

Fixpoint firstMatch (rules : list ((float -> Status -> bool) * RiskTier))
  (d : float) (s : Status) : RiskTier :=
  match rules with
  | [] => MinimalRisk
  | (condition, tier) :: rest =>
      if condition d s then tier else firstMatch rest d s
  end.

Definition decisionTable : float -> Status -> RiskTier := firstMatch riskRules.

(** A fetch of the wildfire service fails when the transport fails, the
    status is not 2xx, the body does not parse or the body has an [error]
    field. *)
Definition fetchFails (reply : Reply FeatureData) : bool :=
  match reply with
  | NetworkError _ => true
  | HttpResponse st (InvalidJson _) => true
  | HttpResponse st (Json d) =>
      negb (ok (mkResponse st (Json d))) || bool_decide (is_Some (data_error d))
  end.

(** The feature list of a reply (empty when it has none). *)
Definition fetchedFeatures (reply : Reply FeatureData) : list Feature :=
  match reply with
  | HttpResponse _ (Json d) => default [] (features d)
  | _ => []
  end.

(** A record's status is one of the three active ones. *)
Definition hasActiveStatus (fire : JSObject) : bool :=
  match statusOf (prop fire "STATUS") with
  | OutOfControl | BeingHeld | UnderControl => true
  | Out | Unknown => false
  end.

(** A coordinate is present when it is neither [null] nor [undefined]. *)
Definition isPresent (v : JSValue) : bool :=
  match v with
  | JSUndefined | JSNull => false
  | _ => true
  end.

Definition coordinatesPresent (fire : JSObject) : bool :=
  isPresent (prop fire "LATITUDE") && isPresent (prop fire "LONGITUDE").

(** Both coordinates pass the truthiness test the filter applies. *)
Definition coordinatesTruthy (fire : JSObject) : bool :=
  ToBoolean (prop fire "LATITUDE") && ToBoolean (prop fire "LONGITUDE").

(** An address is blank when every character of it is white space. *)
Fixpoint isBlank (s : string) : bool :=
  match s with
  | EmptyString => true
  | String c s' => isWhiteSpace c && isBlank s'
  end.

(** The two failures of the geocoder, as the caller sees them: the message of
    the error [geocodeAddress] throws. *)
Definition geocodingFailed (detail : string) : string :=
  "Geocoding failed: " +:+ detail.
Definition addressNotFoundError : string := geocodingFailed addressNotFoundMessage.
Definition geocodingServiceError (detail : string) : string := geocodingFailed detail.

(** The query [geocodeAddress] sends for an address. *)
Definition geocodeQuery (address : string) : string :=
  address +:+ ", Newfoundland and Labrador, Canada".

(** What [geocodeAddress] completes with, given the geocoder's reply. *)
Definition geocodeOutcome (reply : Reply GeocodeData) : Completion Location :=
  match reply with
  | NetworkError msg => Throw (geocodingFailed msg)
  | HttpResponse st b =>
      if ok (mkResponse st b) then
        match b with
        | InvalidJson msg => Throw (geocodingFailed msg)
        | Json d =>
            match candidates d with
            | Some (c :: _) =>
                Normal (mkLocation (y (location c)) (x (location c))
                          (score c) (cand_address c))
            | _ => Throw addressNotFoundError
            end
        end
      else Throw (geocodingFailed ("HTTP error! status: " +:+ pretty st))
  end.

(** The cache holds an entry younger than [maxAge] at time [now]. *)
Definition cacheFresh (now : Z) (w : World) : bool :=
  match sessionStorage w !! "wildfireData" with
  | Some (CacheItem _ timestamp) => (now - timestamp <? maxAge)%Z
  | _ => false
  end.

(** The calls one search issues when the cache answers. *)
Definition callsOnCacheHit (rev : Revision) (address : string) : list Request :=
  GeocodeRequest (geocodeQuery address)
  :: match rev with RevHotspot => [HotspotRequest] | RevList | RevMap => [] end.

(** ** Sample data *)

(** A fresh browser session: initial React state, empty storage. *)
Definition freshWorld : World := mkWorld "" false [] "" None None ∅ 0 [].

(** The user types into the address box ([setAddress]). *)
Definition withAddress (a : string) (w : World) : World :=
  mkWorld a (loading w) (results w) (error w) (lastUpdated w) (userLocation w)
    (sessionStorage w) (clock w) (requests w).

Definition stJohns : Candidate :=
  mkCandidate (mkPoint (JSNumber (-52.7125)) (JSNumber 47.5614))
    (JSNumber 100) (JSString "St. John's, Newfoundland and Labrador").

Definition sampleFeature (id status : string) (geom : option Point) : Feature :=
  mkFeature (object [("FIREID", JSString id); ("STATUS", JSString status)]) geom.

Definition activeFeature : Feature :=
  sampleFeature "F1" "OC" (Some (mkPoint (JSNumber (-53.18)) (JSNumber 47.75))).
Definition equatorFeature : Feature :=
  sampleFeature "F2" "OC" (Some (mkPoint (JSNumber (-53.25)) (JSNumber 0))).
Definition outFeature : Feature :=
  sampleFeature "F3" "O" (Some (mkPoint (JSNumber (-53.38)) (JSNumber 47.65))).
Definition noGeometryFeature : Feature := sampleFeature "F4" "UC" None.
Definition heldFeature : Feature :=
  sampleFeature "F5" "BH" (Some (mkPoint (JSNumber (-57.95)) (JSNumber 48.95))).

(** A feed with an out-of-control fire, a fire on the equator, a fire that is
    out, a fire without geometry and a fire being held. *)
Definition sampleFeed : list Feature :=
  [activeFeature; equatorFeature; outFeature; noGeometryFeature; heldFeature].

(** Every service answers; each call takes 200 ms. *)
Definition liveEnv : Env :=
  mkEnv (fun _ => HttpResponse 200 (Json (mkGeocodeData (Some [stJohns]))))
    (HttpResponse 200 (Json (mkFeatureData None (Some sampleFeed))))
    (HttpResponse 200 (Json (mkFeatureData None (Some []))))
    (fun _ => 200%Z).

(** The geocoder answers; the wildfire and hotspot services are unreachable. *)
Definition degradedEnv : Env :=
  mkEnv (fun _ => HttpResponse 200 (Json (mkGeocodeData (Some [stJohns]))))
    (NetworkError "Failed to fetch")
    (NetworkError "Failed to fetch")
    (fun _ => 200%Z).

(** The geocoder finds no candidate. *)
Definition nowhereEnv : Env :=
  mkEnv (fun _ => HttpResponse 200 (Json (mkGeocodeData (Some []))))
    (HttpResponse 200 (Json (mkFeatureData None (Some sampleFeed))))
    (HttpResponse 200 (Json (mkFeatureData None (Some []))))
    (fun _ => 200%Z).

(** The geocoder is down (HTTP 503). *)
Definition geocoderDownEnv : Env :=
  mkEnv (fun _ => HttpResponse 503 (InvalidJson "Unexpected token"))
    (HttpResponse 200 (Json (mkFeatureData None (Some sampleFeed))))
    (HttpResponse 200 (Json (mkFeatureData None (Some []))))
    (fun _ => 200%Z).

(** What [geocodeAddress] makes of the candidate [stJohns]. *)
Definition stJohnsLocation : Location :=
  mkLocation (JSNumber 47.5614) (JSNumber (-52.7125)) (JSNumber 100)
    (JSString "St. John's, Newfoundland and Labrador").

(** A session in which the user has typed an address. *)
Definition typedWorld (a : string) : World := withAddress a freshWorld.

(** ** Presentation *)

(** [getStatusColor] of the result cards: the badge classes of a status.  The
    revision with the hotspot feed shows "BH" in purple, the other two in
    yellow. *)
Definition getStatusColor (rev : Revision) (status : JSValue) : string :=
  if strictEqString status "OC" then "text-red-700 bg-red-100 border-red-300"
  else if strictEqString status "BH" then
    match rev with
    | RevHotspot => "text-purple-700 bg-purple-100 border-purple-300"
    | RevList | RevMap => "text-yellow-700 bg-yellow-100 border-yellow-300"
    end
  else if strictEqString status "UC" then
    "text-green-700 bg-green-100 border-green-300"
  else if strictEqString status "O" then
    "text-gray-700 bg-gray-100 border-gray-300"
  else "text-gray-700 bg-gray-100 border-gray-300".

(** [getMarkerColor] of the inline map (revision [RevMap]). *)
Definition getMarkerColor (status : JSValue) : string :=
  if strictEqString status "OC" then "#dc2626"
  else if strictEqString status "BH" then "#f59e0b"
  else if strictEqString status "UC" then "#16a34a"
  else "#6b7280".

(** [getStatusColor] of the stand-alone [WildfireMap] component. *)
Definition WildfireMap_getStatusColor (status : JSValue) : string :=
  if strictEqString status "OC" then "red"
  else if strictEqString status "BH" then "orange"
  else if strictEqString status "UC" then "green"
  else "gray".

(** The centre and zoom of the map in the revision with the hotspot feed
    ([InteractiveMap]) and in the stand-alone [WildfireMap]:
    [userLocation ? [userLocation.lat, userLocation.lng] : defaultCenter] and
    [userLocation ? 9 : 6].  The inline map of revision [RevMap] does not
    compute them: it is set to a fixed view and then fitted to its markers. *)
Definition mapCenter (defaultCenter : JSValue * JSValue)
  (userLocation : option Location) : JSValue * JSValue :=
  match userLocation with
  | Some l => (lat l, lng l)
  | None => defaultCenter
  end.

Definition mapZoom (userLocation : option Location) : Z :=
  match userLocation with
  | Some _ => 9
  | None => 6
  end.

(** The default centre of [InteractiveMap]. *)
Definition InteractiveMap_defaultCenter : JSValue * JSValue :=
  (JSNumber 48.5, JSNumber (-56.5)).

Section Presentation.
Context `{Host}.

(** The risk badge of a result card: [getRiskLevel(fire.distance, fire.STATUS)]. *)
Definition riskOf (fire : JSObject) : RiskLevel :=
  getRiskLevel (distanceOf fire) (prop fire "STATUS").

(** The condition under which a result card shows the critical alert:
    [fire.distance < 50 && fire.STATUS === "OC"]. *)
Definition criticalAlert (fire : JSObject) : bool :=
  PrimFloat.ltb (distanceOf fire) 50 && strictEqString (prop fire "STATUS") "OC".

(** The condition under which the page shows the prompt to enter an address:
    [results.length === 0 && !loading && !error]. *)
Definition emptyPrompt (w : World) : bool :=
  (length (results w) =? 0)%nat && negb (loading w)
  && negb (ToBoolean (JSString (error w))).
End Presentation.

(** ** Vocabulary for the properties of the whole pipeline *)

(** The hotspot fetch yields nothing when the transport fails, the status is
    not 2xx, the body does not parse, or the body has an [error] field or no
    [features] field. *)
Definition hotspotFetchFails (reply : Reply FeatureData) : bool :=
  match reply with
  | NetworkError _ => true
  | HttpResponse st (InvalidJson _) => true
  | HttpResponse st (Json d) =>
      negb (ok (mkResponse st (Json d)))
      || match data_error d, features d with
         | None, Some _ => false
         | _, _ => true
         end
  end.

(** The risk tiers, from the least to the most severe. *)
Definition tierRank (t : RiskTier) : nat :=
  match t with
  | MinimalRisk => 0
  | LowRisk => 1
  | ModerateRisk => 2
  | HighRisk => 3
  | ExtremeRisk => 4
  end.

(** The tiers above [LowRisk]. *)
Definition isElevated (t : option RiskTier) : bool :=
  match t with
  | Some ExtremeRisk | Some HighRisk | Some ModerateRisk => true
  | _ => false
  end.

(** Every record shown and every record cached passes the fetcher's filter. *)
Definition cachedFires (w : World) : list JSObject :=
  match sessionStorage w !! "wildfireData" with
  | Some (CacheItem data _) => data
  | _ => []
  end.

Definition onlyActiveFires (w : World) : bool :=
  forallb isActiveFire (results w) && forallb isActiveFire (cachedFires w).

(** The hotspot list as stored for the map. *)
Definition storedHotspots (w : World) : option StorageItem :=
  sessionStorage w !! "mapHotspots".

(** An environment that differs only in what the hotspot service answers. *)
Definition withHotspotReply (reply : Reply FeatureData) (env : Env) : Env :=
  mkEnv (geocodeReply env) (wildfireReply env) reply (latency env).

(** ** The run of a search in closed form *)

(** The payload of a cache entry younger than [maxAge], with its stamp. *)
Definition cachedPayload (w : World) : option (list JSObject * Z) :=
  match sessionStorage w !! "wildfireData" with
  | Some (CacheItem data ts) =>
      if (clock w - ts <? maxAge)%Z then Some (data, ts) else None
  | _ => None
  end.

(** What [getWildfireData] returns for a reply of the wildfire service. *)
Definition fetchedFires (rev : Revision) (reply : Reply FeatureData)
  : list JSObject :=
  if fetchFails reply then fallbackFires rev
  else List.filter isActiveFire (map toFire (fetchedFeatures reply)).

Section ClosedForm.
Context `{Host}.

(** What [getHotspotData] returns for a reply of the hotspot service. *)
Definition fetchedHotspots (reply : Reply FeatureData) : list JSObject :=
  if hotspotFetchFails reply then []
  else List.filter coordinatesTruthy (map toHotspot (fetchedFeatures reply)).

(** The world once the geocoder has answered with [loc]. *)
Definition afterGeocode (rev : Revision) (env : Env) (loc : Location)
  (w : World) : World :=
  let w0 := issued env (GeocodeRequest (geocodeQuery (address w)))
              (withResults [] (withError "" (withLoading true w))) in
  match rev with
  | RevList => w0
  | RevHotspot | RevMap => withUserLocation (Some loc) w0
  end.

(** The fire list a search works on: cached or fetched. *)
Definition wildfiresOf (rev : Revision) (env : Env) (w1 : World)
  : list JSObject :=
  match cachedPayload w1 with
  | Some (data, _) => data
  | None => fetchedFires rev (wildfireReply env)
  end.

(** The world after the cache-or-fetch step. *)
Definition afterCacheOrFetch (rev : Revision) (env : Env) (w1 : World) : World :=
  match cachedPayload w1 with
  | Some (_, ts) => withLastUpdated (Some ts) w1
  | None =>
      let w' := issued env WildfireRequest w1 in
      let w'' := if fetchFails (wildfireReply env)
                 then withError degradedMessage w' else w' in
      withLastUpdated (Some (clock w''))
        (withStorage
           (insert "wildfireData"
              (CacheItem (fetchedFires rev (wildfireReply env)) (clock w'')))
           w'')
  end.

Definition hotspotsOf (rev : Revision) (env : Env) : list JSObject :=
  match rev with
  | RevHotspot => fetchedHotspots (hotspotReply env)
  | RevList | RevMap => []
  end.

Definition afterHotspots (rev : Revision) (env : Env) (w2 : World) : World :=
  match rev with
  | RevHotspot => issued env HotspotRequest w2
  | RevList | RevMap => w2
  end.

(** The world a search ends in when its geocoding yields [loc]. *)
Definition afterSearch (rev : Revision) (env : Env) (loc : Location)
  (w : World) : World :=
  let w1 := afterGeocode rev env loc w in
  let wildfires := wildfiresOf rev env w1 in
  let hotspots := hotspotsOf rev env in
  let w3 := afterHotspots rev env (afterCacheOrFetch rev env w1) in
  let stored :=
    withStorage
      (insert "mapHotspots" (HotspotItem (map (withDistance loc) hotspots))) in
  withLoading false
    (if (length wildfires =? 0)%nat then
       let w4 := withResults [] w3 in
       let w5 := if negb (ToBoolean (JSString (error w)))
                 then withError areaClearMessage w4 else w4 in
       match rev with
       | RevHotspot => if (0 <? length hotspots)%nat then stored w5 else w5
       | RevList | RevMap => w5
       end
     else
       let w4 := withResults (firesWithDistance loc wildfires) w3 in
       match rev with
       | RevHotspot => stored w4
       | RevList | RevMap => w4
       end).

(** The world a search ends in when its geocoding throws [msg]. *)
Definition afterGeocodeFailure (env : Env) (msg : string) (w : World) : World :=
  withLoading false
    (withError msg
       (issued env (GeocodeRequest (geocodeQuery (address w)))
          (withResults [] (withError "" (withLoading true w))))).
End ClosedForm.

(** ** More sample data *)

(** The wildfire service answers with no active fire; the hotspot service is
    unreachable. *)
Definition quietEnv : Env :=
  mkEnv (fun _ => HttpResponse 200 (Json (mkGeocodeData (Some [stJohns]))))
    (HttpResponse 200
       (Json (mkFeatureData None (Some [outFeature; noGeometryFeature]))))
    (NetworkError "Failed to fetch")
    (fun _ => 200%Z).

Definition hotspotFeature (id : float) (confidence : string)
  (latitude longitude : JSValue) : Feature :=
  mkFeature
    (object [("OBJECTID", JSNumber id); ("confidence", JSString confidence);
             ("latitude", latitude); ("longitude", longitude)])
    None.

(** A hotspot feed: one hotspot with coordinates, one without a latitude. *)
Definition hotspotFeed : list Feature :=
  [hotspotFeature 7 "high" (JSNumber 48.1) (JSNumber (-54.2));
   hotspotFeature 8 "nominal" JSUndefined (JSNumber (-55))].

(** Every service answers, the hotspot service with [hotspotFeed]. *)
Definition hotspotEnv : Env :=
  mkEnv (fun _ => HttpResponse 200 (Json (mkGeocodeData (Some [stJohns]))))
    (HttpResponse 200 (Json (mkFeatureData None (Some sampleFeed))))
    (HttpResponse 200 (Json (mkFeatureData None (Some hotspotFeed))))
    (fun _ => 200%Z).

(** A geocoder that offers two candidates. *)
Definition cornerBrook : Candidate :=
  mkCandidate (mkPoint (JSNumber (-57.9522)) (JSNumber 48.9517))
    (JSNumber 100) (JSString "Corner Brook, Newfoundland and Labrador").

Definition twoCandidatesEnv : Env :=
  mkEnv (fun _ => HttpResponse 200
                    (Json (mkGeocodeData (Some [stJohns; cornerBrook]))))
    (HttpResponse 200 (Json (mkFeatureData None (Some sampleFeed))))
    (HttpResponse 200 (Json (mkFeatureData None (Some []))))
    (fun _ => 200%Z).

(** A feature whose attributes carry coordinates but which has no geometry. *)
Definition attributeOnlyFeature : Feature :=
  mkFeature
    (object [("FIREID", JSString "F6"); ("STATUS", JSString "OC");
             ("LATITUDE", JSNumber 48.2); ("LONGITUDE", JSNumber (-55.1))])
    None.

(** Two fires at the same place, after one that is farther away. *)
Definition twinFeature : Feature :=
  sampleFeature "F7" "UC" (Some (mkPoint (JSNumber (-53.18)) (JSNumber 47.75))).

Definition tiedEnv : Env :=
  mkEnv (fun _ => HttpResponse 200 (Json (mkGeocodeData (Some [stJohns]))))
    (HttpResponse 200
       (Json (mkFeatureData None
                (Some [heldFeature; activeFeature; twinFeature]))))
    (HttpResponse 200 (Json (mkFeatureData None (Some []))))
    (fun _ => 200%Z).



(** ** A reference host *)

(** Taylor polynomials for the functions of [Math], precise enough to run the
    examples, and conversions that cover integers. *)
Definition taylor_sin (t : float) : float :=
  let t2 := (t * t)%float in
  (t * (1 - t2 / 6 * (1 - t2 / 20 * (1 - t2 / 42 * (1 - t2 / 72 *
     (1 - t2 / 110 * (1 - t2 / 156 * (1 - t2 / 210))))))))%float.

Definition taylor_cos (t : float) : float :=
  let t2 := (t * t)%float in
  (1 - t2 / 2 * (1 - t2 / 12 * (1 - t2 / 30 * (1 - t2 / 56 *
     (1 - t2 / 90 * (1 - t2 / 132 * (1 - t2 / 182)))))))%float.

(** [atan] on [0, 1]: two halvings of the angle, then the series. *)
Definition taylor_atan_unit (z : float) : float :=
  let half u := (u / (1 + PrimFloat.sqrt (1 + u * u)))%float in
  let u := half (half z) in
  let u2 := (u * u)%float in
  (4 * (u * (1 - u2 * (1 / 3 - u2 * (1 / 5 - u2 * (1 / 7 - u2 *
     (1 / 9 - u2 * (1 / 11 - u2 * (1 / 13)))))))))%float.

Definition taylor_atan (z : float) : float :=
  let a := PrimFloat.abs z in
  let r := if PrimFloat.leb a 1 then taylor_atan_unit a
           else (0x1.921fb54442d18p+0 - taylor_atan_unit (1 / a))%float in
  if PrimFloat.ltb z 0 then PrimFloat.opp r else r.

Definition taylor_atan2 (b a : float) : float :=
  if PrimFloat.ltb 0 a then taylor_atan (b / a)
  else if PrimFloat.ltb a 0 then
         if PrimFloat.leb 0 b then (taylor_atan (b / a) + 0x1.921fb54442d18p+1)%float
         else (taylor_atan (b / a) - 0x1.921fb54442d18p+1)%float
       else if PrimFloat.ltb 0 b then 0x1.921fb54442d18p+0%float
            else if PrimFloat.ltb b 0 then (- 0x1.921fb54442d18p+0)%float
                 else 0%float.

(** Unsigned decimal integers; anything else converts to [NaN]. *)
Fixpoint digitsToNumber (acc : float) (s : string) : float :=
  match s with
  | EmptyString => acc
  | String c s' =>
      let n := N_of_ascii c in
      if ((48 <=? n) && (n <=? 57))%N
      then digitsToNumber (acc * 10 + float_of_Z (Z.of_N n - 48))%float s'
      else PrimFloat.nan
  end.

(** The integer part of a finite number, in decimal. *)
Definition integerToString (n : float) : string :=
  match Prim2SF n with
  | S754_zero _ => "0"
  | S754_finite sign m e =>
      (if sign then "-" else "")
      +:+ pretty (if (0 <=? e)%Z then Z.shiftl (Zpos m) e
                  else Z.shiftr (Zpos m) (- e))
  | S754_infinity sign => if sign then "-Infinity" else "Infinity"
  | S754_nan => "NaN"
  end.

Definition referenceHost : Host := {|
  host_sin := taylor_sin;
  host_cos := taylor_cos;
  host_atan2 := taylor_atan2;
  StringToNumber := digitsToNumber 0;
  NumberToString := integerToString
|}.


(** ** Proof automation *)

(** The sine of a half angle, as [calculateDistance] computes it from a
    difference of degrees. *)
Definition sinHalf `{Host} (d : float) : float :=
  host_sin (d * 0x1.921fb54442d18p+1 / 180 / 2)%float.

(** One step of the monad: returns, binds and setters are run, the fetchers
    and the ranking are left folded. *)
Ltac js_step :=
  cbn [mret js_ret mbind js_bind setResults setError setLoading
       setUserLocation setItem modify gets throw fst snd].

(** The cases of a search whose geocoding succeeded: the revision, a cache
    hit or miss, an empty or non-empty fire list, the error on display, the
    hotspots fetched and the outcome of the fetch. *)
Ltac search_cases rev env w :=
  unfold afterSearch, wildfiresOf, afterCacheOrFetch, hotspotsOf, afterHotspots;
  destruct (cachedPayload (afterGeocode rev env _ w)) as [[? ?]|];
  destruct rev;
  repeat match goal with
    | |- context [(length ?l =? 0)%nat] => destruct (length l =? 0)%nat
    | |- context [(0 <? length ?l)%nat] => destruct (0 <? length l)%nat
    | |- context [negb (ToBoolean (JSString (error w)))] =>
        destruct (negb (ToBoolean (JSString (error w))))
    | |- context [fetchFails (wildfireReply env)] =>
        destruct (fetchFails (wildfireReply env))
    end.

(** * Properties *)

(** ** Arithmetic of binary64 numbers *)

(** *** Order *)

Lemma SFcompare_antisym (a b : spec_float) (c : comparison) :
  SFcompare a b = Some c -> SFcompare b a = Some (CompOpp c).
Proof.
  destruct a as [sa|sa| |sa ma ea], b as [sb|sb| |sb mb eb]; simpl;
    try discriminate; intros [= <-];
    try (destruct sa; reflexivity); try (destruct sb; reflexivity);
    try (destruct sa, sb; reflexivity).
  rewrite (Z.compare_antisym ea eb).
  change (PosDef.Pos.compare_cont Eq mb ma) with (Pos.compare mb ma).
  change (PosDef.Pos.compare_cont Eq ma mb) with (Pos.compare ma mb).
  rewrite (Pos.compare_antisym ma mb).
  destruct sa, sb, (ea ?= eb)%Z, (ma ?= mb)%positive; reflexivity.
Qed.




(** *** The sign of a difference

    The specification of binary64 subtraction, unfolded far enough to read off
    the sign of its result. *)

Section SubtractionSign.
Local Open Scope Z_scope.














End SubtractionSign.



Lemma ltb_leb (a b : float) :
  PrimFloat.ltb a b = true -> PrimFloat.leb a b = true.
Proof.
  rewrite FloatAxioms.ltb_spec, FloatAxioms.leb_spec. unfold SFltb, SFleb.
  destruct (SFcompare _ _) as [[| |]|]; congruence.
Qed.




Lemma SFleb_finite_same (s : bool) (m1 m2 : positive) (e1 e2 : Z) :
  SFleb (S754_finite s m1 e1) (S754_finite s m2 e2) = true
  <-> if s then (e2 < e1 \/ (e1 = e2 /\ (m2 <= m1)%positive))%Z
      else (e1 < e2 \/ (e1 = e2 /\ (m1 <= m2)%positive))%Z.
Proof.
  unfold SFleb, SFcompare.
  change (PosDef.Pos.compare_cont Eq m1 m2) with (Pos.compare m1 m2).
  destruct s; destruct (Z.compare_spec e1 e2); destruct (Pos.compare_spec m1 m2);
    simpl; split; intros; try discriminate; try reflexivity; try lia.
Qed.

Lemma SFleb_trans (a b c : spec_float) :
  SFleb a b = true -> SFleb b c = true -> SFleb a c = true.
Proof.
  destruct a as [sa|sa| |sa ma ea], b as [sb|sb| |sb mb eb],
    c as [sc|sc| |sc mc ec];
    try (intros; discriminate);
    try (destruct sa; (reflexivity || discriminate));
    try (destruct sb; (reflexivity || discriminate));
    try (destruct sc; (reflexivity || discriminate));
    try (destruct sa, sb; (reflexivity || discriminate));
    try (destruct sb, sc; (reflexivity || discriminate));
    try (destruct sa, sc; (reflexivity || discriminate)).
  all: destruct sa, sb, sc; try (intros; (reflexivity || discriminate));
    rewrite !SFleb_finite_same; lia.
Qed.

Lemma leb_trans (a b c : float) :
  PrimFloat.leb a b = true -> PrimFloat.leb b c = true ->
  PrimFloat.leb a c = true.
Proof. rewrite !FloatAxioms.leb_spec. apply SFleb_trans. Qed.




(** *** Signs

    Negation commutes with multiplication and division, and swapping the
    operands of a subtraction negates the difference. *)

Section SignSymmetry.

Lemma binary_round_aux_opp (s : bool) (m e : Z) (l : SpecFloat.location) :
  binary_round_aux prec emax (negb s) m e l
  = SFopp (binary_round_aux prec emax s m e l).
Proof.
  unfold binary_round_aux.
  destruct (shr_fexp prec emax m e l) as [mrs1 e1].
  destruct (shr_fexp prec emax _ e1 loc_Exact) as [mrs2 e2].
  destruct (shr_m mrs2); try reflexivity.
  destruct (e2 <=? _)%Z; reflexivity.
Qed.

Lemma binary_round_opp (s : bool) (m : positive) (e : Z) :
  binary_round prec emax (negb s) m e = SFopp (binary_round prec emax s m e).
Proof.
  unfold binary_round. destruct (shl_align _ _ _) as [mz ez].
  apply binary_round_aux_opp.
Qed.

Lemma SFmul_opp_l (a b : spec_float) :
  SF64mul (SFopp a) b = SFopp (SF64mul a b).
Proof.
  destruct a as [sa|sa| |sa ma ea], b as [sb|sb| |sb mb eb]; simpl;
    try reflexivity; try (destruct sa, sb; reflexivity).
  rewrite <- binary_round_aux_opp. destruct sa, sb; reflexivity.
Qed.

Lemma SFmul_comm (a b : spec_float) : SF64mul a b = SF64mul b a.
Proof.
  destruct a as [sa|sa| |sa ma ea], b as [sb|sb| |sb mb eb]; simpl;
    try reflexivity; try (destruct sa, sb; reflexivity).
  rewrite (Pos.mul_comm ma mb), (Z.add_comm ea eb), (xorb_comm sa sb).
  reflexivity.
Qed.

Lemma SFdiv_opp_l (a b : spec_float) :
  SF64div (SFopp a) b = SFopp (SF64div a b).
Proof.
  destruct a as [sa|sa| |sa ma ea], b as [sb|sb| |sb mb eb]; simpl;
    try reflexivity; try (destruct sa, sb; reflexivity).
  destruct (SFdiv_core_binary prec emax (Zpos ma) ea (Zpos mb) eb)
    as [[mz ez] lz].
  rewrite <- binary_round_aux_opp. destruct sa, sb; reflexivity.
Qed.

(** Swapping the operands of a subtraction negates the result, except where
    both results are the same (a zero or a NaN). *)
Lemma SFsub_swap (a b : spec_float) :
  SF64sub b a = SFopp (SF64sub a b) \/ SF64sub b a = SF64sub a b.
Proof.
  destruct a as [sa|sa| |sa ma ea], b as [sb|sb| |sb mb eb]; simpl;
    try (left; reflexivity); try (right; reflexivity);
    try (destruct sa, sb; (left; reflexivity) || (right; reflexivity));
    try (destruct sa; (left; reflexivity) || (right; reflexivity));
    try (destruct sb; (left; reflexivity) || (right; reflexivity)).
  rewrite (Z.min_comm eb ea).
  set (ez := Z.min ea eb).
  set (da := cond_Zopp sa (Zpos (fst (shl_align ma ea ez)))).
  set (db := cond_Zopp sb (Zpos (fst (shl_align mb eb ez)))).
  replace (db - da)%Z with (- (da - db))%Z by lia.
  destruct (da - db)%Z as [|p|p]; simpl.
  - right; reflexivity.
  - left. apply (binary_round_opp false).
  - left. rewrite <- (binary_round_opp true). reflexivity.
Qed.

End SignSymmetry.

Lemma mul_opp_l (a b : float) : (- a * b = - (a * b))%float.
Proof.
  apply Prim2SF_inj. rewrite mul_spec, !opp_spec, mul_spec. apply SFmul_opp_l.
Qed.

Lemma mul_comm (a b : float) : (a * b = b * a)%float.
Proof. apply Prim2SF_inj. rewrite !mul_spec. apply SFmul_comm. Qed.

Lemma mul_opp_r (a b : float) : (a * - b = - (a * b))%float.
Proof. rewrite (mul_comm a), mul_opp_l, (mul_comm b). reflexivity. Qed.

Lemma opp_involutive (a : float) : (- - a = a)%float.
Proof.
  apply Prim2SF_inj. rewrite !opp_spec.
  destruct (Prim2SF a) as [[]|[]| |[] m e]; reflexivity.
Qed.

Lemma div_opp_l (a b : float) : (- a / b = - (a / b))%float.
Proof.
  apply Prim2SF_inj. rewrite div_spec, !opp_spec, div_spec. apply SFdiv_opp_l.
Qed.

Lemma sub_swap (a b : float) :
  (b - a = - (a - b))%float \/ (b - a = a - b)%float.
Proof.
  destruct (SFsub_swap (Prim2SF a) (Prim2SF b)) as [E|E]; [left|right];
    apply Prim2SF_inj; rewrite ?opp_spec, !sub_spec; exact E.
Qed.

Lemma finite_spec (a : float) :
  PrimFloat.is_finite a = true ->
  (exists s, Prim2SF a = S754_zero s) \/ (exists s m e, Prim2SF a = S754_finite s m e).
Proof.
  unfold PrimFloat.is_finite, PrimFloat.is_nan, PrimFloat.is_infinity.
  rewrite !FloatAxioms.eqb_spec, abs_spec.
  change (Prim2SF infinity) with (S754_infinity false).
  destruct (Prim2SF a) as [s|s| |s m e]; simpl;
    try discriminate; try (destruct s; discriminate); intros _;
    [left|right]; eauto.
Qed.

(** A finite number minus itself is [+0]. *)
Lemma sub_diag (a : float) :
  PrimFloat.is_finite a = true -> (a - a = 0)%float.
Proof.
  intros Hf. apply Prim2SF_inj. rewrite sub_spec.
  change (Prim2SF 0) with (S754_zero false).
  destruct (finite_spec a Hf) as [[s ->]|(s & m & e & ->)].
  - destruct s; reflexivity.
  - unfold SF64sub, SFsub. cbv zeta. rewrite Z.sub_diag. reflexivity.
Qed.

(** Adding a finite number times zero times zero to [+0] leaves [+0]. *)
Lemma add_mul_zero (c : float) :
  PrimFloat.is_finite c = true -> (0 + c * 0 * 0 = 0)%float.
Proof.
  intros Hf. apply Prim2SF_inj. rewrite add_spec, !mul_spec.
  change (Prim2SF 0) with (S754_zero false).
  destruct (finite_spec c Hf) as [[s ->]|(s & m & e & ->)];
    destruct s; reflexivity.
Qed.

(** ** Risk classifier *)

(** [statusOf] reads a status code the way [getStatusText] does. *)
Lemma getStatusText_statusOf (v : JSValue) :
  getStatusText v = statusText (statusOf v).
Proof.
  unfold getStatusText, statusOf.
  repeat match goal with |- context [if ?b then _ else _] => destruct b end;
    reflexivity.
Qed.

Lemma statusOf_OC (v : JSValue) :
  strictEqString v "OC" = isStatus (statusOf v) OutOfControl.
Proof.
  unfold statusOf.
  destruct (strictEqString v "OC"); [reflexivity|].
  repeat match goal with |- context [if ?b then _ else _] => destruct b end;
    reflexivity.
Qed.

Lemma statusOf_BH (v : JSValue) :
  strictEqString v "BH" || strictEqString v "OC"
  = isStatus (statusOf v) OutOfControl || isStatus (statusOf v) BeingHeld.
Proof.
  unfold statusOf. destruct v as [| | b | n | s]; try reflexivity.
  simpl. destruct (String.eqb_spec s "OC") as [->|]; [reflexivity|].
  destruct (String.eqb s "BH"); [reflexivity|].
  repeat match goal with |- context [if ?b then _ else _] => destruct b end;
    reflexivity.
Qed.

(** C1. The risk classifier is the decision table of section 4.5 read top to
    bottom, first match wins: for every distance and every status value the
    tier [getRiskLevel] reports is the one the table assigns to the status the
    value stands for.  The seven sample points of the specification follow. *)
Theorem getRiskLevel_decision_table :
  (forall (d : float) (v : JSValue),
      riskTier d v = Some (decisionTable d (statusOf v)))
  /\ riskTier 5 (JSString "OC") = Some ExtremeRisk
  /\ riskTier 15 (JSString "OC") = Some HighRisk
  /\ riskTier 40 (JSString "OC") = Some ModerateRisk
  /\ riskTier 60 (JSString "OC") = Some LowRisk
  /\ riskTier 60 (JSString "BH") = Some LowRisk
  /\ riskTier 200 (JSString "OC") = Some MinimalRisk
  /\ riskTier 5 (JSString "UC") = Some MinimalRisk.
Proof.
  split; [|repeat split; reflexivity].
  intros d v. unfold riskTier, getRiskLevel, decisionTable. simpl firstMatch.
  rewrite statusOf_BH, statusOf_OC.
  destruct (isStatus (statusOf v) OutOfControl);
    destruct (isStatus (statusOf v) BeingHeld); simpl;
    destruct (PrimFloat.ltb d 10); destruct (PrimFloat.ltb d 25);
    destruct (PrimFloat.ltb d 50); destruct (PrimFloat.ltb d 100); reflexivity.
Qed.

(** ** Distance calculator *)

Section DistanceProperties.
Context `{Host}.
Hypothesis sin_odd : forall t : float, host_sin (- t) = (- host_sin t)%float.

Lemma sinHalf_opp (d : float) : sinHalf (- d) = (- sinHalf d)%float.
Proof. unfold sinHalf. rewrite mul_opp_l, !div_opp_l. apply sin_odd. Qed.

Lemma sinHalf_square_swap (a b : float) :
  (sinHalf (b - a) * sinHalf (b - a) = sinHalf (a - b) * sinHalf (a - b))%float.
Proof.
  destruct (sub_swap a b) as [E|E]; rewrite E; [|reflexivity].
  rewrite sinHalf_opp, mul_opp_l, mul_opp_r, opp_involutive. reflexivity.
Qed.

Lemma sinHalf_scaled_swap (c a b : float) :
  (c * sinHalf (b - a) * sinHalf (b - a)
   = c * sinHalf (a - b) * sinHalf (a - b))%float.
Proof.
  destruct (sub_swap a b) as [E|E]; rewrite E; [|reflexivity].
  rewrite sinHalf_opp, !mul_opp_r, mul_opp_l, opp_involutive.
  reflexivity.
Qed.

Lemma calculateDistance_float_symmetric (lat1 lon1 lat2 lon2 : float) :
  calculateDistance lat1 lon1 lat2 lon2 = calculateDistance lat2 lon2 lat1 lon1.
Proof.
  unfold calculateDistance.
  cbn [num_lit num_add num_sub num_mul num_div Math_PI Math_sin Math_cos
       Math_sqrt Math_atan2 float_arith].
  change (float_of_Z 180) with 180%float. change (float_of_Z 2) with 2%float.
  fold (sinHalf (lat2 - lat1)) (sinHalf (lon2 - lon1))
       (sinHalf (lat1 - lat2)) (sinHalf (lon1 - lon2)).
  rewrite (sinHalf_square_swap lat2 lat1).
  rewrite (sinHalf_scaled_swap _ lon2 lon1).
  rewrite (mul_comm (host_cos (lat2 * _ / 180)) (host_cos (lat1 * _ / 180))).
  reflexivity.
Qed.

End DistanceProperties.

Lemma calculateDistance_float_zero `{Host} (lat lon : float) :
  PrimFloat.is_finite lat = true ->
  PrimFloat.is_finite lon = true ->
  host_sin 0 = 0%float ->
  host_atan2 0 1 = 0%float ->
  PrimFloat.is_finite (host_cos (lat * Math_PI / 180) * host_cos (lat * Math_PI / 180))
  = true ->
  calculateDistance lat lon lat lon = 0%float.
Proof.
  intros Hlat Hlon Hsin Hatan Hcos. unfold calculateDistance.
  cbn [num_lit num_add num_sub num_mul num_div Math_PI Math_sin Math_cos
       Math_sqrt Math_atan2 float_arith] in *.
  rewrite (sub_diag lat Hlat), (sub_diag lon Hlon).
  change (float_of_Z 180) with 180%float in *.
  change (float_of_Z 2) with 2%float. change (float_of_Z 1) with 1%float.
  change (0 * 0x1.921fb54442d18p+1 / 180 / 2)%float with 0%float.
  rewrite Hsin. change (0 * 0)%float with 0%float.
  rewrite (add_mul_zero _ Hcos).
  change (PrimFloat.sqrt 0) with 0%float.
  change (PrimFloat.sqrt (1 - 0)) with 1%float. rewrite Hatan. reflexivity.
Qed.

(** C7. The haversine distance is symmetric in its two points and is zero
    from a point to itself.  This holds in the arithmetic of the real numbers,
    which the floating-point operations approximate; and it holds exactly on
    binary64 numbers: symmetry for a [Math.sin] that is odd, zero distance
    for finite coordinates and a [Math] with [sin 0 = 0], [atan2 0 1 = 0] and
    a finite cosine. *)
Theorem calculateDistance_symmetric_zero :
  (forall lat1 lon1 lat2 lon2 : R,
      calculateDistance lat1 lon1 lat2 lon2
      = calculateDistance lat2 lon2 lat1 lon1
      /\ calculateDistance lat1 lon1 lat1 lon1 = 0%R)
  /\ (forall (H : Host) (lat1 lon1 lat2 lon2 : float),
         (forall t : float, host_sin (- t) = (- host_sin t)%float) ->
         calculateDistance lat1 lon1 lat2 lon2
         = calculateDistance lat2 lon2 lat1 lon1)
  /\ (forall (H : Host) (lat lon : float),
         PrimFloat.is_finite lat = true ->
         PrimFloat.is_finite lon = true ->
         host_sin 0 = 0%float ->
         host_atan2 0 1 = 0%float ->
         PrimFloat.is_finite
           (host_cos (lat * Math_PI / 180) * host_cos (lat * Math_PI / 180))
         = true ->
         calculateDistance lat lon lat lon = 0%float).
Proof.
  split; [|split].
  - intros lat1 lon1 lat2 lon2. unfold calculateDistance. simpl. split.
    + replace ((lat1 - lat2) * PI / 180 / 2)%R
        with (- ((lat2 - lat1) * PI / 180 / 2))%R by lra.
      replace ((lon1 - lon2) * PI / 180 / 2)%R
        with (- ((lon2 - lon1) * PI / 180 / 2))%R by lra.
      rewrite !sin_neg.
      set (s := sin ((lat2 - lat1) * PI / 180 / 2)).
      set (t := sin ((lon2 - lon1) * PI / 180 / 2)).
      set (c1 := cos (lat1 * PI / 180)). set (c2 := cos (lat2 * PI / 180)).
      replace (- s * - s + c2 * c1 * - t * - t)%R
        with (s * s + c1 * c2 * t * t)%R by ring.
      reflexivity.
    + replace ((lat1 - lat1) * PI / 180 / 2)%R with 0%R by lra.
      replace ((lon1 - lon1) * PI / 180 / 2)%R with 0%R by lra.
      rewrite sin_0.
      replace (0 * 0 + cos (lat1 * PI / 180) * cos (lat1 * PI / 180) * 0 * 0)%R
        with 0%R by ring.
      rewrite Rminus_0_r, sqrt_0, sqrt_1. unfold Ratan2.
      destruct (Rlt_dec 0 1) as [_|n]; [|exfalso; apply n; lra].
      replace (0 / 1)%R with 0%R by lra. rewrite atan_0. ring.
  - intros H lat1 lon1 lat2 lon2 Hodd.
    apply calculateDistance_float_symmetric, Hodd.
  - intros H lat lon. apply calculateDistance_float_zero.
Qed.

(** ** Result cache *)

Lemma getCachedData_no_entry (env : Env) (w : World) :
  (forall data ts, sessionStorage w !! "wildfireData" <> Some (CacheItem data ts)) ->
  getCachedData env w = (Normal None, w).
Proof.
  intros Hno. unfold getCachedData, mbind, js_bind, gets, Date_now. simpl.
  destruct (sessionStorage w !! "wildfireData") as [[data ts|h]|] eqn:E;
    simpl; try (destruct (_ <? _)%Z); try reflexivity.
  all: exfalso; exact (Hno data ts eq_refl).
Qed.

Lemma getCachedData_entry (env : Env) (w : World) data ts :
  sessionStorage w !! "wildfireData" = Some (CacheItem data ts) ->
  getCachedData env w =
    if (clock w - ts <? maxAge)%Z
    then (Normal (Some data), withLastUpdated (Some ts) w)
    else (Normal None, w).
Proof.
  intros E. unfold getCachedData, mbind, js_bind, gets, Date_now. simpl.
  rewrite E. simpl. destruct (clock w - ts <? maxAge)%Z; reflexivity.
Qed.

Lemma setCachedData_run (env : Env) (w : World) data :
  setCachedData data env w =
    (Normal tt,
     withLastUpdated (Some (clock w))
       (withStorage (insert "wildfireData" (CacheItem data (clock w))) w)).
Proof. reflexivity. Qed.

(** The timer's callback removes the entry, so the next check misses. *)
Lemma autoRefresh_invalidates (rev : Revision) (env : Env) (w : World) :
  getCachedData env (snd (autoRefresh rev env w))
  = (Normal None, snd (autoRefresh rev env w)).
Proof.
  apply getCachedData_no_entry. intros data ts.
  destruct rev; simpl; rewrite ?lookup_delete_ne by discriminate;
    rewrite lookup_delete_eq; discriminate.
Qed.

(** C4. [getCachedData] misses when there is no entry and when the entry is
    ten minutes old or older, and a miss leaves the world, the stale entry
    included, as it was; it returns the stored payload when the entry is
    younger than ten minutes.  Eleven minutes after [setCachedData] the call
    misses, one minute after it hits. *)
Theorem getCachedData_ttl :
  maxAge = 600000%Z
  /\ (forall env w,
         sessionStorage w !! "wildfireData" = None ->
         getCachedData env w = (Normal None, w))
  /\ (forall env w data ts,
         sessionStorage w !! "wildfireData" = Some (CacheItem data ts) ->
         (maxAge <= clock w - ts)%Z ->
         getCachedData env w = (Normal None, w))
  /\ (forall env w data ts,
         sessionStorage w !! "wildfireData" = Some (CacheItem data ts) ->
         (clock w - ts < maxAge)%Z ->
         fst (getCachedData env w) = Normal (Some data)
         /\ sessionStorage (snd (getCachedData env w)) = sessionStorage w)
  /\ (forall env w data,
         let stored := snd (setCachedData data env w) in
         getCachedData env (elapse (11 * 60 * 1000) stored)
         = (Normal None, elapse (11 * 60 * 1000) stored)
         /\ fst (getCachedData env (elapse (1 * 60 * 1000) stored))
            = Normal (Some data)).
Proof.
  split; [reflexivity|]. split; [|split; [|split]].
  - intros env w E. apply getCachedData_no_entry. intros data ts. rewrite E.
    discriminate.
  - intros env w data ts E Hage. rewrite (getCachedData_entry _ _ _ _ E).
    destruct (Z.ltb_spec (clock w - ts) maxAge); [lia|reflexivity].
  - intros env w data ts E Hage. rewrite (getCachedData_entry _ _ _ _ E).
    destruct (Z.ltb_spec (clock w - ts) maxAge); [split; reflexivity|lia].
  - intros env w data stored. subst stored. rewrite setCachedData_run. simpl.
    split.
    + erewrite getCachedData_entry
        by (simpl; apply lookup_insert_eq).
      simpl. destruct (Z.ltb_spec (clock w + 11 * 60 * 1000 - clock w) maxAge);
        [unfold maxAge in *; lia|reflexivity].
    + erewrite getCachedData_entry
        by (simpl; apply lookup_insert_eq).
      simpl. destruct (Z.ltb_spec (clock w + 1 * 60 * 1000 - clock w) maxAge);
        [reflexivity|unfold maxAge in *; lia].
Qed.

(** ** Wildfire data fetcher *)

Lemma getWildfireData_failure (rev : Revision) (env : Env) (w : World) :
  fetchFails (wildfireReply env) = true ->
  getWildfireData rev env w
  = (Normal (fallbackFires rev),
     withError degradedMessage (issued env WildfireRequest w)).
Proof.
  intros Hfail.
  unfold getWildfireData, tryCatch, mbind, js_bind, fetch, json, throw.
  destruct (wildfireReply env) as [msg|st [msg|d]]; simpl in *.
  - reflexivity.
  - destruct (negb _); reflexivity.
  - unfold ok in *. simpl in *.
    destruct (negb ((200 <=? st)%Z && (st <=? 299)%Z)); [reflexivity|].
    simpl in *. destruct (data_error d); [reflexivity|].
    rewrite bool_decide_eq_true in Hfail. destruct Hfail as [? [=]].
Qed.

Lemma getWildfireData_success (rev : Revision) (env : Env) (w : World) :
  fetchFails (wildfireReply env) = false ->
  getWildfireData rev env w
  = (Normal (List.filter isActiveFire
               (map toFire (fetchedFeatures (wildfireReply env)))),
     issued env WildfireRequest w).
Proof.
  intros Hok.
  unfold getWildfireData, tryCatch, mbind, js_bind, fetch, json, throw.
  destruct (wildfireReply env) as [msg|st [msg|d]]; simpl in *; try discriminate.
  unfold ok in *. simpl in *.
  destruct (negb ((200 <=? st)%Z && (st <=? 299)%Z)); [discriminate|].
  simpl in *. destruct (data_error d) as [e|].
  - rewrite bool_decide_eq_false in Hok. exfalso. apply Hok. eexists; reflexivity.
  - destruct (features d) as [[|f fs]|]; reflexivity.
Qed.

(** C2 (as amended). Whenever the fetch fails, [getWildfireData] completes
    normally, sets the degraded-mode message and returns the revision's fixed
    fallback list: four records in the list-only and inline-map revisions,
    three in the revision with the hotspot feed. *)
Theorem getWildfireData_fallback :
  forall (rev : Revision) (env : Env) (w : World),
    fetchFails (wildfireReply env) = true ->
    fst (getWildfireData rev env w) = Normal (fallbackFires rev)
    /\ error (snd (getWildfireData rev env w)) = degradedMessage
    /\ length (fallbackFires rev)
       = match rev with RevHotspot => 3%nat | RevList | RevMap => 4%nat end.
Proof.
  intros rev env w Hfail. rewrite (getWildfireData_failure _ _ _ Hfail).
  repeat split. destruct rev; reflexivity.
Qed.

Lemma getWildfireData_fallback_witness :
  fst (getWildfireData RevList degradedEnv freshWorld)
  = Normal (fallbackFires RevList)
  /\ error (snd (getWildfireData RevList degradedEnv freshWorld))
     = degradedMessage
  /\ length (fallbackFires RevList) = 4%nat.
Proof.
  apply (getWildfireData_fallback RevList degradedEnv freshWorld). reflexivity.
Defined.

(** The hotspot revision's fallback list has three records, not four. *)
Lemma fallback_hotspot_revision_three :
  fetchFails (wildfireReply degradedEnv) = true
  /\ fst (getWildfireData RevHotspot degradedEnv freshWorld)
     = Normal [fallbackKingston; fallbackOchre; fallbackTrinity]
  /\ length (fallbackFires RevHotspot) = 3%nat.
Proof. repeat split. Qed.

Lemma isActiveFire_spec (fire : JSObject) :
  isActiveFire fire = coordinatesTruthy fire && hasActiveStatus fire.
Proof.
  unfold isActiveFire, coordinatesTruthy, hasActiveStatus, statusOf, includes.
  rewrite <- !andb_assoc. f_equal. f_equal.
  destruct (prop fire "STATUS") as [| | b | n | s];
    try (simpl; rewrite ?andb_false_r; reflexivity).
  simpl. destruct (String.eqb_spec s "") as [->|]; [reflexivity|].
  simpl. destruct (String.eqb s "OC"); [reflexivity|].
  destruct (String.eqb s "BH"); [reflexivity|].
  destruct (String.eqb s "UC"); [reflexivity|].
  destruct (String.eqb s "O"); reflexivity.
Qed.

Lemma toFire_STATUS (f : Feature) :
  prop (toFire f) "STATUS" = prop (attributes f) "STATUS".
Proof.
  unfold prop, toFire. rewrite !lookup_insert_ne by discriminate. reflexivity.
Qed.

Lemma toFire_LATITUDE (f : Feature) :
  prop (toFire f) "LATITUDE"
  = match geometry f with Some g => y g | None => JSNull end.
Proof.
  unfold prop, toFire. rewrite lookup_insert_ne by discriminate.
  rewrite lookup_insert_eq. reflexivity.
Qed.

Lemma toFire_LONGITUDE (f : Feature) :
  prop (toFire f) "LONGITUDE"
  = match geometry f with Some g => x g | None => JSNull end.
Proof. unfold prop, toFire. rewrite lookup_insert_eq. reflexivity. Qed.

Lemma filter_eq_ext {A} (p q : A -> bool) (l : list A) :
  (forall a, p a = q a) -> List.filter p l = List.filter q l.
Proof. intros E. induction l as [|a l IH]; simpl; [|rewrite E, IH]; reflexivity. Qed.

(** C3 (as amended). After a successful fetch [getWildfireData] returns, in
    feed order, exactly the records whose two coordinates are truthy (present,
    and not zero) and whose status is out of control, being held or under
    control.  A record whose status is out, unrecognised or missing, or that
    lacks a coordinate, is not in the output. *)
Theorem getWildfireData_active_records :
  forall (rev : Revision) (env : Env) (w : World),
    fetchFails (wildfireReply env) = false ->
    exists output,
      fst (getWildfireData rev env w) = Normal output
      /\ output
         = List.filter (fun fire => coordinatesTruthy fire && hasActiveStatus fire)
             (map toFire (fetchedFeatures (wildfireReply env)))
      /\ forall f,
           In f (fetchedFeatures (wildfireReply env)) ->
           statusOf (prop (attributes f) "STATUS") = Out
           \/ statusOf (prop (attributes f) "STATUS") = Unknown
           \/ coordinatesPresent (toFire f) = false ->
           ~ In (toFire f) output.
Proof.
  intros rev env w Hok. rewrite (getWildfireData_success _ _ _ Hok).
  eexists. split; [reflexivity|]. split.
  - apply filter_eq_ext, isActiveFire_spec.
  - intros f _ Hbad Hin. apply filter_In in Hin as [_ Hact].
    rewrite isActiveFire_spec in Hact.
    apply andb_prop in Hact as [Hc Hs]. unfold hasActiveStatus in Hs.
    rewrite toFire_STATUS in Hs.
    destruct Hbad as [E|[E|E]]; try (rewrite E in Hs; discriminate).
    unfold coordinatesPresent in E. unfold coordinatesTruthy in Hc.
    apply andb_prop in Hc as [Hlat Hlon].
    destruct (prop (toFire f) "LATITUDE"), (prop (toFire f) "LONGITUDE");
      simpl in *; discriminate.
Qed.

Lemma getWildfireData_active_records_witness :
  exists output,
    fst (getWildfireData RevList liveEnv freshWorld) = Normal output
    /\ output
       = List.filter (fun fire => coordinatesTruthy fire && hasActiveStatus fire)
           (map toFire (fetchedFeatures (wildfireReply liveEnv)))
    /\ forall f,
         In f (fetchedFeatures (wildfireReply liveEnv)) ->
         statusOf (prop (attributes f) "STATUS") = Out
         \/ statusOf (prop (attributes f) "STATUS") = Unknown
         \/ coordinatesPresent (toFire f) = false ->
         ~ In (toFire f) output.
Proof.
  apply (getWildfireData_active_records RevList liveEnv freshWorld). reflexivity.
Defined.

(** A fire on the equator has both coordinates and is out of control, and the
    fetcher still drops it. *)
Lemma equator_fire_not_returned :
  In equatorFeature (fetchedFeatures (wildfireReply liveEnv))
  /\ fetchFails (wildfireReply liveEnv) = false
  /\ coordinatesPresent (toFire equatorFeature) = true
  /\ hasActiveStatus (toFire equatorFeature) = true
  /\ fst (getWildfireData RevList liveEnv freshWorld)
     = Normal [toFire activeFeature; toFire heldFeature]
  /\ ~ In (toFire equatorFeature) [toFire activeFeature; toFire heldFeature].
Proof.
  split; [right; left; reflexivity|]. repeat split.
  intros [E|[E|[]]];
    apply (f_equal (fun o => prop o "FIREID")) in E; vm_compute in E;
    discriminate.
Qed.

(** C9. A fetched record whose latitude or longitude is the number zero is
    not in the output of [getWildfireData], whatever its status: the filter
    tests the coordinates for truthiness, and zero is falsy. *)
Theorem getWildfireData_drops_zero_coordinate :
  forall (rev : Revision) (env : Env) (w : World) (f : Feature) (g : Point)
         (n : float),
    fetchFails (wildfireReply env) = false ->
    In f (fetchedFeatures (wildfireReply env)) ->
    geometry f = Some g ->
    y g = JSNumber n \/ x g = JSNumber n ->
    PrimFloat.eqb n 0 = true ->
    exists output,
      fst (getWildfireData rev env w) = Normal output
      /\ ~ In (toFire f) output.
Proof.
  intros rev env w f g n Hok _ Hg Hzero Hn.
  rewrite (getWildfireData_success _ _ _ Hok). eexists. split; [reflexivity|].
  intros Hin. apply filter_In in Hin as [_ Hact]. unfold isActiveFire in Hact.
  rewrite toFire_LATITUDE, toFire_LONGITUDE, Hg in Hact.
  destruct Hzero as [E|E]; rewrite E in Hact; simpl in Hact; rewrite Hn in Hact;
    simpl in Hact; rewrite ?andb_false_r in Hact; discriminate.
Qed.

Lemma getWildfireData_drops_zero_coordinate_witness :
  exists output,
    fst (getWildfireData RevList liveEnv freshWorld) = Normal output
    /\ ~ In (toFire equatorFeature) output.
Proof.
  apply (getWildfireData_drops_zero_coordinate RevList liveEnv freshWorld
           equatorFeature (mkPoint (JSNumber (-53.25)) (JSNumber 0)) 0%float).
  - reflexivity.
  - right; left; reflexivity.
  - reflexivity.
  - left; reflexivity.
  - reflexivity.
Defined.

(** ** Geocoder *)

Lemma geocodeAddress_run (address : string) (env : Env) (w : World) :
  geocodeAddress address env w
  = (geocodeOutcome (geocodeReply env (geocodeQuery address)),
     issued env (GeocodeRequest (geocodeQuery address)) w).
Proof.
  unfold geocodeAddress, geocodeOutcome, geocodeQuery, tryCatch, mbind, js_bind,
    fetch, json, throw.
  destruct (geocodeReply env _) as [msg|st [msg|d]]; simpl; try reflexivity.
  - destruct (ok _); reflexivity.
  - destruct (ok _); simpl; [|reflexivity].
    destruct (candidates d) as [[|c cs]|]; reflexivity.
Qed.

(** ** Blank addresses *)

Lemma trimStart_blank (s : string) : isBlank s = true -> trimStart s = "".
Proof.
  induction s as [|c s IH]; simpl; [reflexivity|].
  intros Hb. apply andb_prop in Hb as [Hc Hs]. rewrite Hc. auto.
Qed.

Lemma trim_blank (s : string) : isBlank s = true -> trim s = "".
Proof. intros Hb. unfold trim. rewrite (trimStart_blank _ Hb). reflexivity. Qed.

Lemma trimStart_nonblank (s : string) :
  isBlank s = false ->
  exists c s', trimStart s = String c s' /\ isWhiteSpace c = false.
Proof.
  induction s as [|c s IH]; simpl; [discriminate|].
  destruct (isWhiteSpace c) eqn:Hc; simpl; [exact IH|].
  intros _. exists c, s. split; [reflexivity|exact Hc].
Qed.

Lemma trim_nonblank (s : string) : isBlank s = false -> trim s <> "".
Proof.
  intros Hb. destruct (trimStart_nonblank _ Hb) as (c & s' & E & Hc).
  unfold trim. rewrite E. simpl. rewrite Hc.
  destruct (trimEnd s'); discriminate.
Qed.

Lemma truthy_trim (s : string) :
  ToBoolean (JSString (trim s)) = negb (isBlank s).
Proof.
  simpl. destruct (isBlank s) eqn:Hb.
  - rewrite (trim_blank _ Hb). reflexivity.
  - destruct (String.eqb_spec (trim s) ""); [|reflexivity].
    exfalso. exact (trim_nonblank _ Hb e).
Qed.

Lemma append_inj_r (p a b : string) : p +:+ a = p +:+ b -> a = b.
Proof. induction p as [|c p IH]; simpl; [auto|]. intros [= E]. auto. Qed.

Section SearchProperties.
Context `{Host}.

Lemma searchWildfires_blank (rev : Revision) (env : Env) (w : World) :
  isBlank (address w) = true ->
  searchWildfires rev env w = (Normal tt, withError invalidInputMessage w).
Proof.
  intros Hb. unfold searchWildfires, mbind, js_bind, gets. cbv beta iota.
  rewrite truthy_trim, Hb. reflexivity.
Qed.

(** The world when the [try] block of [searchWildfires] is entered. *)
Lemma searchWildfires_nonblank (rev : Revision) (env : Env) (w : World) :
  isBlank (address w) = false ->
  searchWildfires rev env w
  = tryFinally
      (tryCatch (searchBody rev (address w) (error w))
         (fun message => setError message))
      (setLoading false) env
      (withResults [] (withError "" (withLoading true w))).
Proof.
  intros Hb. unfold searchWildfires, mbind, js_bind, gets. cbv beta iota.
  rewrite truthy_trim, Hb. reflexivity.
Qed.

Lemma searchBody_geocode_fails rev address error env w msg :
  geocodeOutcome (geocodeReply env (geocodeQuery address)) = Throw msg ->
  searchBody rev address error env w
  = (Throw msg, issued env (GeocodeRequest (geocodeQuery address)) w).
Proof.
  intros Hout. unfold searchBody, mbind, js_bind.
  rewrite geocodeAddress_run, Hout. reflexivity.
Qed.

(** C6. For a blank address (empty, or white space only) [searchWildfires]
    does nothing but set the error message asking for an address: no call is
    added to the network log (neither the geocoder nor the wildfire or hotspot
    service is contacted) and the session storage, the cache included, is
    unchanged. *)
Theorem searchWildfires_blank_address :
  forall (rev : Revision) (env : Env) (w : World),
    isBlank (address w) = true ->
    searchWildfires rev env w = (Normal tt, withError invalidInputMessage w)
    /\ error (snd (searchWildfires rev env w)) = "Please enter an address"
    /\ requests (snd (searchWildfires rev env w)) = requests w
    /\ sessionStorage (snd (searchWildfires rev env w)) = sessionStorage w.
Proof.
  intros rev env w Hb. rewrite (searchWildfires_blank _ _ _ Hb).
  repeat split.
Qed.

(** C8. [geocodeAddress] throws the address-not-found error when the service
    answers with no candidate, and a service error that carries the HTTP
    status or the transport's message when the call fails.  The two messages
    differ, so the caller can tell the failures apart, and [searchWildfires]
    puts the message it caught into the error state unchanged. *)
Theorem geocodeAddress_failure_modes :
  forall (rev : Revision) (env : Env) (w : World),
    let reply := geocodeReply env (geocodeQuery (address w)) in
    (forall st d,
        reply = HttpResponse st (Json d) ->
        ok (mkResponse st (Json d)) = true ->
        candidates d = None \/ candidates d = Some [] ->
        fst (geocodeAddress (address w) env w) = Throw addressNotFoundError)
    /\ (forall st b,
           reply = HttpResponse st b ->
           ok (mkResponse st b) = false ->
           fst (geocodeAddress (address w) env w)
           = Throw (geocodingServiceError
                      ("HTTP error! status: " +:+ pretty st)))
    /\ (forall msg,
           reply = NetworkError msg ->
           fst (geocodeAddress (address w) env w)
           = Throw (geocodingServiceError msg))
    /\ (forall st : Z,
           geocodingServiceError ("HTTP error! status: " +:+ pretty st)
           <> addressNotFoundError)
    /\ (forall msg,
           msg <> addressNotFoundMessage ->
           geocodingServiceError msg <> addressNotFoundError)
    /\ (forall message,
           isBlank (address w) = false ->
           fst (geocodeAddress (address w) env w) = Throw message ->
           error (snd (searchWildfires rev env w)) = message
           /\ requests (snd (searchWildfires rev env w))
              = (requests w ++ [GeocodeRequest (geocodeQuery (address w))])%list).
Proof.
  intros rev env w reply. subst reply.
  repeat match goal with |- _ /\ _ => split end.
  - intros st d E Hok Hc. rewrite geocodeAddress_run, E. simpl.
    unfold geocodeOutcome. rewrite Hok. destruct Hc as [-> | ->]; reflexivity.
  - intros st b E Hok. rewrite geocodeAddress_run, E. simpl.
    unfold geocodeOutcome. rewrite Hok. reflexivity.
  - intros msg E. rewrite geocodeAddress_run, E. reflexivity.
  - intros st E. discriminate E.
  - intros msg Hne E. apply Hne. unfold geocodingServiceError,
      addressNotFoundError, geocodingFailed in E.
    exact (append_inj_r _ _ _ E).
  - intros message Hb Hg. rewrite geocodeAddress_run in Hg. simpl in Hg.
    rewrite (searchWildfires_nonblank _ _ _ Hb).
    unfold tryFinally, tryCatch.
    rewrite (searchBody_geocode_fails _ _ _ _ _ _ Hg). split; reflexivity.
Qed.


(** ** Cache-or-fetch *)

Lemma getCachedData_miss (env : Env) (w : World) :
  cacheFresh (clock w) w = false -> getCachedData env w = (Normal None, w).
Proof.
  unfold cacheFresh. intros Hm.
  destruct (sessionStorage w !! "wildfireData") as [[data ts|h]|] eqn:E.
  - rewrite (getCachedData_entry _ _ _ _ E), Hm. reflexivity.
  - apply getCachedData_no_entry. intros data ts. rewrite E. discriminate.
  - apply getCachedData_no_entry. intros data ts. rewrite E. discriminate.
Qed.

Lemma getCachedData_hit (env : Env) (w : World) data ts :
  sessionStorage w !! "wildfireData" = Some (CacheItem data ts) ->
  (clock w - ts < maxAge)%Z ->
  getCachedData env w = (Normal (Some data), withLastUpdated (Some ts) w).
Proof.
  intros E Hage. rewrite (getCachedData_entry _ _ _ _ E).
  destruct (Z.ltb_spec (clock w - ts) maxAge); [reflexivity|lia].
Qed.

Lemma getHotspotData_run (env : Env) :
  exists hotspots,
    forall w, getHotspotData env w = (Normal hotspots, issued env HotspotRequest w).
Proof.
  unfold getHotspotData, tryCatch, mbind, js_bind, fetch, json, throw.
  destruct (hotspotReply env) as [msg|st [msg|d]]; simpl.
  - exists []. reflexivity.
  - exists []. intros w. destruct (negb _); reflexivity.
  - destruct (negb (ok (mkResponse st (Json d)))); simpl.
    + exists []. reflexivity.
    + destruct (data_error d), (features d); eexists; intros w; reflexivity.
Qed.

Lemma fallbackFires_nonempty (rev : Revision) :
  (length (fallbackFires rev) =? 0)%nat = false.
Proof. destruct rev; reflexivity. Qed.

(** A search whose geocoding succeeds, whose cache check misses and whose
    wildfire fetch fails: the fallback list is ranked, shown and cached. *)
Lemma searchWildfires_degraded rev env w loc :
  isBlank (address w) = false ->
  geocodeOutcome (geocodeReply env (geocodeQuery (address w))) = Normal loc ->
  cacheFresh (clock w + latency env (GeocodeRequest (geocodeQuery (address w)))) w
  = false ->
  fetchFails (wildfireReply env) = true ->
  let w' := snd (searchWildfires rev env w) in
  results w' = firesWithDistance loc (fallbackFires rev)
  /\ error w' = degradedMessage
  /\ sessionStorage w' !! "wildfireData"
     = Some (CacheItem (fallbackFires rev)
               (clock w + latency env (GeocodeRequest (geocodeQuery (address w)))
                + latency env WildfireRequest))
  /\ requests w'
     = (requests w ++ [GeocodeRequest (geocodeQuery (address w)); WildfireRequest]
        ++ match rev with RevHotspot => [HotspotRequest] | _ => [] end)%list
  /\ address w' = address w
  /\ (clock w' = clock w
               + latency env (GeocodeRequest (geocodeQuery (address w)))
               + latency env WildfireRequest
               + match rev with
                 | RevHotspot => latency env HotspotRequest
                 | _ => 0
                 end)%Z.
Proof.
  intros Hb Hgeo Hmiss Hfail w'. subst w'.
  rewrite (searchWildfires_nonblank _ _ _ Hb).
  destruct (getHotspotData_run env) as [hs Hhs].
  unfold tryFinally, tryCatch, searchBody, mbind, js_bind.
  rewrite geocodeAddress_run, Hgeo.
  destruct rev; js_step;
    (rewrite getCachedData_miss by exact Hmiss);
    rewrite getWildfireData_failure by exact Hfail;
    rewrite setCachedData_run; js_step; rewrite ?Hhs;
    js_step; rewrite fallbackFires_nonempty; simpl;
    rewrite ?lookup_insert_ne by discriminate;
    rewrite lookup_insert_eq, <- ?app_assoc; simpl;
    repeat split; lia.
Qed.

(** A search whose geocoding succeeds and whose cache check hits: the cached
    list is ranked and shown, and the wildfire service is not called. *)
Lemma searchWildfires_cache_hit rev env w loc data ts :
  isBlank (address w) = false ->
  geocodeOutcome (geocodeReply env (geocodeQuery (address w))) = Normal loc ->
  sessionStorage w !! "wildfireData" = Some (CacheItem data ts) ->
  (clock w + latency env (GeocodeRequest (geocodeQuery (address w))) - ts
   < maxAge)%Z ->
  (length data =? 0)%nat = false ->
  let w' := snd (searchWildfires rev env w) in
  results w' = firesWithDistance loc data
  /\ error w' = ""
  /\ sessionStorage w' !! "wildfireData" = Some (CacheItem data ts)
  /\ requests w' = (requests w ++ callsOnCacheHit rev (address w))%list.
Proof.
  intros Hb Hgeo Hentry Hage Hne w'. subst w'.
  rewrite (searchWildfires_nonblank _ _ _ Hb).
  destruct (getHotspotData_run env) as [hs Hhs].
  unfold tryFinally, tryCatch, searchBody, mbind, js_bind.
  rewrite geocodeAddress_run, Hgeo.
  destruct rev; js_step;
    (erewrite getCachedData_hit by (simpl; eassumption));
    js_step; rewrite ?Hhs; js_step; rewrite Hne; simpl;
    rewrite ?lookup_insert_ne by discriminate; rewrite <- ?app_assoc;
    repeat split; first [assumption | reflexivity].
Qed.

Lemma getCachedData_cases (env : Env) (w : World) :
  getCachedData env w = (Normal None, w)
  \/ exists data ts,
       getCachedData env w = (Normal (Some data), withLastUpdated (Some ts) w).
Proof.
  destruct (sessionStorage w !! "wildfireData") as [[data ts|h]|] eqn:E.
  - rewrite (getCachedData_entry _ _ _ _ E).
    destruct (_ <? _)%Z; [right; eauto|left; reflexivity].
  - left. apply getCachedData_no_entry. intros data ts. rewrite E. discriminate.
  - left. apply getCachedData_no_entry. intros data ts. rewrite E. discriminate.
Qed.

Lemma getWildfireData_cases (rev : Revision) (env : Env) (w : World) :
  exists wildfires w',
    getWildfireData rev env w = (Normal wildfires, w') /\ results w' = results w.
Proof.
  destruct (fetchFails (wildfireReply env)) eqn:E.
  - rewrite (getWildfireData_failure _ _ _ E). eauto.
  - rewrite (getWildfireData_success _ _ _ E). eauto.
Qed.

(** Whatever the services answer, a search with a non-blank address leaves
    the result list empty or shows a list ranked by [firesWithDistance]. *)
Lemma searchWildfires_results (rev : Revision) (env : Env) (w : World) :
  isBlank (address w) = false ->
  results (snd (searchWildfires rev env w)) = []
  \/ exists location wildfires,
       results (snd (searchWildfires rev env w))
       = firesWithDistance location wildfires.
Proof.
  intros Hb. rewrite (searchWildfires_nonblank _ _ _ Hb).
  destruct (getHotspotData_run env) as [hs Hhs].
  unfold tryFinally, tryCatch, searchBody, mbind, js_bind.
  rewrite geocodeAddress_run.
  destruct (geocodeOutcome _) as [loc|msg]; [|left; reflexivity].
  destruct rev; js_step;
    match goal with
    | |- context [getCachedData env ?w0] =>
        destruct (getCachedData_cases env w0) as [E|(data & ts & E)]; rewrite E
    end; js_step;
    try match goal with
      | |- context [getWildfireData ?r env ?w0] =>
          destruct (getWildfireData_cases r env w0) as (data & w1 & E1 & R1);
          rewrite E1, setCachedData_run
      end; js_step; rewrite ?Hhs; js_step;
    destruct (length data =? 0)%nat; js_step;
    try (destruct (negb (ToBoolean (JSString (error w)))); js_step);
    try (destruct (0 <? length hs)%nat; js_step);
    simpl; eauto.
Qed.

(** A search started while the cache holds a fresh entry does not call the
    wildfire service and leaves the entry in place, whatever the address and
    whatever the services answer. *)
Lemma searchWildfires_fresh_cache (rev : Revision) (env : Env) (w : World)
  data ts :
  sessionStorage w !! "wildfireData" = Some (CacheItem data ts) ->
  (clock w + latency env (GeocodeRequest (geocodeQuery (address w))) - ts
   < maxAge)%Z ->
  let w' := snd (searchWildfires rev env w) in
  sessionStorage w' !! "wildfireData" = Some (CacheItem data ts)
  /\ exists calls,
       requests w' = (requests w ++ calls)%list /\ ~ In WildfireRequest calls.
Proof.
  intros Hentry Hage w'. subst w'.
  destruct (isBlank (address w)) eqn:Hb.
  - rewrite (searchWildfires_blank _ _ _ Hb). simpl. split; [exact Hentry|].
    exists []. rewrite app_nil_r. auto.
  - rewrite (searchWildfires_nonblank _ _ _ Hb).
    destruct (getHotspotData_run env) as [hs Hhs].
    unfold tryFinally, tryCatch, searchBody, mbind, js_bind.
    rewrite geocodeAddress_run.
    destruct (geocodeOutcome _) as [loc|msg].
    + destruct rev; js_step;
        (erewrite getCachedData_hit by (simpl; eassumption));
        js_step; rewrite ?Hhs; js_step;
        destruct (length data =? 0)%nat; js_step;
        try (destruct (negb (ToBoolean (JSString (error w)))); js_step);
        try (destruct (0 <? length hs)%nat; js_step);
        simpl; rewrite ?lookup_insert_ne by discriminate;
        rewrite <- ?app_assoc;
        (split; [exact Hentry|]); eexists; (split; [reflexivity|]);
        simpl; intros Hin;
        repeat (destruct Hin as [E|Hin]; [discriminate|]); exact Hin.
    + simpl. split; [exact Hentry|]. eexists. split; [reflexivity|].
      simpl. intros [E|[]]. discriminate.
Qed.

End SearchProperties.

(** ** Sorting *)

Section ArraySortProperties.
Context {A : Type} (comparefn : A -> A -> float).

Lemma sortInsert_perm (a : A) (l : list A) :
  Permutation (a :: l) (sortInsert comparefn a l).
Proof.
  induction l as [|b l IH]; simpl; [reflexivity|].
  destruct (PrimFloat.ltb 0 (comparefn a b)); [|reflexivity].
  etransitivity; [apply perm_swap|]. apply perm_skip, IH.
Qed.

Lemma Array_sort_perm (l : list A) : Permutation l (Array_sort comparefn l).
Proof.
  induction l as [|a l IH]; simpl; [reflexivity|].
  etransitivity; [apply perm_skip, IH|]. apply sortInsert_perm.
Qed.

Lemma Array_sort_In (l : list A) (a : A) :
  In a (Array_sort comparefn l) -> In a l.
Proof.
  intros Hin. eapply Permutation_in; [|exact Hin].
  symmetry. apply Array_sort_perm.
Qed.






End ArraySortProperties.


(** ** The properties at the sample data *)

Lemma getCachedData_ttl_witness :
  getCachedData liveEnv (elapse 660000 (snd (setCachedData [fallbackKingston] liveEnv freshWorld)))
  = (Normal None,
     elapse 660000 (snd (setCachedData [fallbackKingston] liveEnv freshWorld)))
  /\ fst (getCachedData liveEnv
            (elapse 60000 (snd (setCachedData [fallbackKingston] liveEnv freshWorld))))
     = Normal (Some [fallbackKingston]).
Proof.
  destruct getCachedData_ttl as (_ & _ & Hstale & Hfresh & _). split.
  - apply (Hstale liveEnv _ [fallbackKingston] 0%Z); [reflexivity|].
    vm_compute. discriminate.
  - apply (Hfresh liveEnv _ [fallbackKingston] 0%Z); reflexivity.
Defined.

Lemma searchWildfires_blank_address_witness :
  searchWildfires (H := referenceHost) RevHotspot liveEnv (typedWorld "   ")
  = (Normal tt, withError invalidInputMessage (typedWorld "   "))
  /\ error (snd (searchWildfires (H := referenceHost) RevHotspot liveEnv
                   (typedWorld "   ")))
     = "Please enter an address"
  /\ requests (snd (searchWildfires (H := referenceHost) RevHotspot liveEnv
                      (typedWorld "   ")))
     = requests (typedWorld "   ")
  /\ sessionStorage (snd (searchWildfires (H := referenceHost) RevHotspot liveEnv
                            (typedWorld "   ")))
     = sessionStorage (typedWorld "   ").
Proof.
  apply (searchWildfires_blank_address (H := referenceHost) RevHotspot liveEnv
           (typedWorld "   ")).
  reflexivity.
Defined.

Lemma geocodeAddress_failure_modes_witness :
  fst (geocodeAddress "Atlantis" nowhereEnv (typedWorld "Atlantis"))
  = Throw addressNotFoundError
  /\ error (snd (searchWildfires (H := referenceHost) RevList nowhereEnv
                   (typedWorld "Atlantis")))
     = addressNotFoundError
  /\ fst (geocodeAddress "Atlantis" geocoderDownEnv (typedWorld "Atlantis"))
     = Throw (geocodingServiceError "HTTP error! status: 503").
Proof.
  destruct (geocodeAddress_failure_modes (H := referenceHost) RevList nowhereEnv
              (typedWorld "Atlantis")) as (Hnone & _ & _ & _ & _ & Hshown).
  destruct (geocodeAddress_failure_modes (H := referenceHost) RevList
              geocoderDownEnv (typedWorld "Atlantis")) as (_ & Hhttp & _).
  split; [|split].
  - apply (Hnone 200%Z (mkGeocodeData (Some []))); [reflexivity|reflexivity|].
    right; reflexivity.
  - apply Hshown; reflexivity.
  - apply (Hhttp 503%Z (InvalidJson "Unexpected token")); reflexivity.
Defined.

Lemma taylor_sin_odd (t : float) : taylor_sin (- t) = (- taylor_sin t)%float.
Proof.
  unfold taylor_sin. cbv zeta.
  rewrite (mul_opp_l t (- t)), (mul_opp_r t t), opp_involutive.
  apply mul_opp_l.
Qed.

Lemma calculateDistance_symmetric_zero_witness :
  calculateDistance (H := float_arith (H := referenceHost))
    47.5614%float (-52.7125)%float 48.9517%float (-57.9522)%float
  = calculateDistance (H := float_arith (H := referenceHost))
      48.9517%float (-57.9522)%float 47.5614%float (-52.7125)%float
  /\ calculateDistance (H := float_arith (H := referenceHost))
       47.5%float (-52.7)%float 47.5%float (-52.7)%float
     = 0%float.
Proof.
  destruct calculateDistance_symmetric_zero as (_ & Hsym & Hzero). split.
  - apply (Hsym referenceHost). exact taylor_sin_odd.
  - apply (Hzero referenceHost); reflexivity.
Defined.

(** ** Worked examples *)

(** The thresholds are strict, and a [NaN] distance is minimal risk. *)
Example riskTier_boundaries :
  riskTier 10 (JSString "OC") = Some HighRisk
  /\ riskTier 25 (JSString "OC") = Some ModerateRisk
  /\ riskTier 50 (JSString "OC") = Some LowRisk
  /\ riskTier 100 (JSString "OC") = Some MinimalRisk
  /\ riskTier 100 (JSString "BH") = Some MinimalRisk
  /\ riskTier 5 (JSString "BH") = Some LowRisk
  /\ riskTier PrimFloat.nan (JSString "OC") = Some MinimalRisk
  /\ riskTier 5 JSUndefined = Some MinimalRisk.
Proof. repeat split. Qed.

Example trim_examples :
  trim "  12 Water St  " = "12 Water St"
  /\ trim (String (ascii_of_nat 9) (String (ascii_of_nat 10) " ")) = ""
  /\ isBlank "" = true
  /\ isBlank " x " = false.
Proof. repeat split. Qed.

(** The fallback fires seen from St. John's, nearest first. *)
Example fallback_ranked_from_stJohns :
  map (fun fire => prop fire "FIREID")
    (firesWithDistance (H := referenceHost) stJohnsLocation (fallbackFires RevList))
  = [JSString "NL-2025-Kingston"; JSString "NL-2025-Ochre";
     JSString "NL-2025-Trinity"; JSString "NL-2025-Labrador"].
Proof. vm_compute. reflexivity. Qed.

(** A search against the live sample feed: the two active fires with
    coordinates are shown, the cache is filled, and three calls are made in
    the hotspot revision. *)
Example live_search :
  let w := snd (searchWildfires (H := referenceHost) RevHotspot liveEnv
                  (typedWorld "St. John's")) in
  map (fun fire => prop fire "FIREID") (results w)
  = [JSString "F1"; JSString "F5"]
  /\ error w = ""
  /\ loading w = false
  /\ lastUpdated w = Some 400%Z
  /\ requests w
     = [GeocodeRequest "St. John's, Newfoundland and Labrador, Canada";
        WildfireRequest; HotspotRequest].
Proof. vm_compute. repeat split. Qed.

(** St. John's to Corner Brook with the reference host: between 417 and
    418 km. *)
Example haversine_stJohns_cornerBrook :
  let d := calculateDistance (H := float_arith (H := referenceHost))
             47.5614%float (-52.7125)%float 48.9517%float (-57.9522)%float in
  PrimFloat.leb 417 d && PrimFloat.leb d 418 = true.
Proof. vm_compute. reflexivity. Qed.

(** * Further properties of the code *)

(** ** Order of distances and the risk tiers *)

Lemma leb_ltb_trans (a b c : float) :
  PrimFloat.leb a b = true -> PrimFloat.ltb b c = true ->
  PrimFloat.ltb a c = true.
Proof.
  intros Hab Hbc.
  pose proof (leb_trans _ _ _ Hab (ltb_leb _ _ Hbc)) as Hac.
  revert Hab Hbc Hac.
  rewrite !FloatAxioms.leb_spec, !FloatAxioms.ltb_spec.
  unfold SFleb, SFltb.
  destruct (SFcompare (Prim2SF a) (Prim2SF c)) as [[| |]|] eqn:Eac;
    try discriminate; try reflexivity.
  intros Hab Hbc _. exfalso.
  pose proof (SFcompare_antisym _ _ _ Eac) as Eca. simpl in Eca.
  assert (Hca : SFleb (Prim2SF c) (Prim2SF a) = true)
    by (unfold SFleb; rewrite Eca; reflexivity).
  assert (Hab' : SFleb (Prim2SF a) (Prim2SF b) = true) by exact Hab.
  pose proof (SFleb_trans _ _ _ Hca Hab') as Hcb.
  unfold SFleb in Hcb.
  destruct (SFcompare (Prim2SF b) (Prim2SF c)) as [[| |]|] eqn:Ebc;
    try discriminate.
  rewrite (SFcompare_antisym _ _ _ Ebc) in Hcb. discriminate.
Qed.

Lemma ltb_trans (a b c : float) :
  PrimFloat.ltb a b = true -> PrimFloat.ltb b c = true ->
  PrimFloat.ltb a c = true.
Proof. intros Hab. apply leb_ltb_trans, ltb_leb, Hab. Qed.

(** X1. A fire that is farther away is never rated higher: for two
    distances in order and the same status, the tier at the larger distance
    is at most the tier at the smaller one. *)
Theorem getRiskLevel_monotone :
  forall (d1 d2 : float) (status : JSValue),
    PrimFloat.leb d1 d2 = true ->
    exists t1 t2,
      riskTier d1 status = Some t1 /\ riskTier d2 status = Some t2
      /\ tierRank t2 <= tierRank t1.
Proof.
  intros d1 d2 status Hle. unfold riskTier, getRiskLevel.
  assert (Hk : forall k, PrimFloat.ltb d2 k = true -> PrimFloat.ltb d1 k = true)
    by (intros k; apply leb_ltb_trans, Hle).
  destruct (strictEqString status "OC"), (strictEqString status "BH"); simpl;
    destruct (PrimFloat.ltb d2 10) eqn:E10; try rewrite (Hk _ E10);
    destruct (PrimFloat.ltb d2 25) eqn:E25; try rewrite (Hk _ E25);
    destruct (PrimFloat.ltb d2 50) eqn:E50; try rewrite (Hk _ E50);
    destruct (PrimFloat.ltb d2 100) eqn:E100; try rewrite (Hk _ E100);
    destruct (PrimFloat.ltb d1 10), (PrimFloat.ltb d1 25),
      (PrimFloat.ltb d1 50), (PrimFloat.ltb d1 100);
    simpl; do 2 eexists; (split; [reflexivity|split; [reflexivity|simpl; lia]]).
Qed.

Lemma getRiskLevel_monotone_witness :
  exists t1 t2,
    riskTier 5 (JSString "OC") = Some t1 /\ riskTier 30 (JSString "OC") = Some t2
    /\ tierRank t2 <= tierRank t1.
Proof. apply (getRiskLevel_monotone 5 30 (JSString "OC")). reflexivity. Defined.

(** X2. Only a fire that is out of control is ever rated above LOW, a fire
    being held is rated LOW within 100 km and MINIMAL otherwise, and any other
    status (under control, out, unknown, missing) is rated MINIMAL at every
    distance, zero included. *)
Theorem getRiskLevel_by_status :
  forall (d : float) (status : JSValue),
    (isElevated (riskTier d status) = true -> status = JSString "OC")
    /\ (status = JSString "BH" ->
        riskTier d status
        = Some (if PrimFloat.ltb d 100 then LowRisk else MinimalRisk))
    /\ (strictEqString status "OC" = false ->
        strictEqString status "BH" = false ->
        riskTier d status = Some MinimalRisk).
Proof.
  intros d status. unfold riskTier, getRiskLevel. repeat split.
  - destruct status as [| |b|n|s]; try discriminate. simpl.
    destruct (String.eqb_spec s "OC") as [->|Hoc]; [reflexivity|].
    destruct (String.eqb s "BH"); simpl; destruct (PrimFloat.ltb d 100);
      discriminate.
  - intros ->. simpl. destruct (PrimFloat.ltb d 100); reflexivity.
  - intros -> ->. reflexivity.
Qed.

Section PresentationProperties.
Context `{Host}.

(** X3. The critical alert of a result card, written in the page as
    [fire.distance < 50 && fire.STATUS === "OC"], is shown exactly for the
    cards whose risk badge is EXTREME, HIGH or MODERATE. *)
Theorem criticalAlert_iff_elevated :
  forall fire : JSObject,
    criticalAlert fire = isElevated (tierOfLevel (level (riskOf fire))).
Proof.
  intros fire. unfold criticalAlert, riskOf, getRiskLevel.
  destruct (strictEqString (prop fire "STATUS") "OC");
    destruct (strictEqString (prop fire "STATUS") "BH"); simpl;
    rewrite ?andb_false_r, ?andb_true_r;
    try (destruct (PrimFloat.ltb (distanceOf fire) 100); reflexivity).
  all: destruct (PrimFloat.ltb (distanceOf fire) 10) eqn:E10;
    [rewrite (ltb_trans _ 10 50 E10 eq_refl); reflexivity|];
    destruct (PrimFloat.ltb (distanceOf fire) 25) eqn:E25;
    [rewrite (ltb_trans _ 25 50 E25 eq_refl); reflexivity|];
    destruct (PrimFloat.ltb (distanceOf fire) 50); [reflexivity|];
    destruct (PrimFloat.ltb (distanceOf fire) 100); reflexivity.
Qed.

(** X4. A record that passes the fetcher's filter is never shown as "Out"
    or "Unknown" and never in the grey of the default case: its status text
    is one of the three active names, and the card badge, the map marker and
    the map circle all get a colour of their own. *)
Theorem active_fire_display :
  forall (rev : Revision) (fire : JSObject),
    isActiveFire fire = true ->
    let status := prop fire "STATUS" in
    In (getStatusText status) ["Out-of-Control"; "Being Held"; "Under Control"]
    /\ getStatusColor rev status <> "text-gray-700 bg-gray-100 border-gray-300"
    /\ getMarkerColor status <> "#6b7280"
    /\ WildfireMap_getStatusColor status <> "gray".
Proof.
  intros rev fire Hact status. subst status.
  rewrite isActiveFire_spec in Hact.
  apply andb_prop in Hact as [_ Hst]. unfold hasActiveStatus, statusOf in Hst.
  unfold getStatusText, getStatusColor, getMarkerColor,
    WildfireMap_getStatusColor.
  destruct (strictEqString (prop fire "STATUS") "OC");
    [simpl; repeat split; auto; discriminate|].
  destruct (strictEqString (prop fire "STATUS") "BH");
    [simpl; repeat split; auto; destruct rev; discriminate|].
  destruct (strictEqString (prop fire "STATUS") "UC");
    [simpl; repeat split; auto; discriminate|].
  destruct (strictEqString (prop fire "STATUS") "O"); discriminate.
Qed.

End PresentationProperties.

(** ** The fetchers *)

Lemma getWildfireData_run (rev : Revision) (env : Env) (w : World) :
  getWildfireData rev env w
  = (Normal (fetchedFires rev (wildfireReply env)),
     if fetchFails (wildfireReply env)
     then withError degradedMessage (issued env WildfireRequest w)
     else issued env WildfireRequest w).
Proof.
  unfold fetchedFires. destruct (fetchFails (wildfireReply env)) eqn:E.
  - apply getWildfireData_failure, E.
  - apply getWildfireData_success, E.
Qed.

Lemma fallbackFires_active (rev : Revision) :
  forallb isActiveFire (fallbackFires rev) = true.
Proof. destruct rev; reflexivity. Qed.

Lemma forallb_filter {A} (p : A -> bool) (l : list A) :
  forallb p (List.filter p l) = true.
Proof.
  induction l as [|a l IH]; simpl; [reflexivity|].
  destruct (p a) eqn:E; simpl; rewrite ?E; exact IH.
Qed.

Lemma fetchedFires_active (rev : Revision) (reply : Reply FeatureData) :
  forallb isActiveFire (fetchedFires rev reply) = true.
Proof.
  unfold fetchedFires. destruct (fetchFails reply).
  - apply fallbackFires_active.
  - apply forallb_filter.
Qed.

(** X8. Whatever the wildfire service answers, [getWildfireData] completes
    normally and every record it returns, live or fallback, passes the
    filter: both coordinates are truthy and the status is "OC", "BH" or
    "UC". *)
Theorem getWildfireData_returns_active :
  forall (rev : Revision) (env : Env) (w : World),
    exists output,
      fst (getWildfireData rev env w) = Normal output
      /\ forall fire, In fire output ->
           isActiveFire fire = true
           /\ coordinatesTruthy fire = true
           /\ includes ["OC"; "BH"; "UC"] (prop fire "STATUS") = true.
Proof.
  intros rev env w. rewrite getWildfireData_run. eexists. split; [reflexivity|].
  intros fire Hin.
  pose proof (fetchedFires_active rev (wildfireReply env)) as Hall.
  rewrite forallb_forall in Hall. specialize (Hall fire Hin).
  split; [exact Hall|]. unfold isActiveFire in Hall. unfold coordinatesTruthy.
  apply andb_prop in Hall as [Hall Hinc]. apply andb_prop in Hall as [Hall _].
  split; assumption.
Qed.

(** X9. The coordinates of a live record come from the feature's geometry
    and from nowhere else: latitude is [geometry.y], longitude is
    [geometry.x].  A feature without geometry is never returned, even when
    its attributes carry [LATITUDE] and [LONGITUDE]. *)
Theorem getWildfireData_coordinates_from_geometry :
  forall (rev : Revision) (env : Env) (w : World),
    fetchFails (wildfireReply env) = false ->
    exists output,
      fst (getWildfireData rev env w) = Normal output
      /\ forall fire, In fire output ->
           exists feature point,
             In feature (fetchedFeatures (wildfireReply env))
             /\ fire = toFire feature
             /\ geometry feature = Some point
             /\ prop fire "LATITUDE" = y point
             /\ prop fire "LONGITUDE" = x point.
Proof.
  intros rev env w Hok. rewrite (getWildfireData_success _ _ _ Hok).
  eexists. split; [reflexivity|]. intros fire Hin.
  apply filter_In in Hin as [Hin Hact].
  apply in_map_iff in Hin as (feature & <- & Hfeat).
  unfold isActiveFire in Hact.
  rewrite toFire_LATITUDE, toFire_LONGITUDE in Hact.
  destruct (geometry feature) as [point|] eqn:Eg; [|discriminate].
  exists feature, point. rewrite toFire_LATITUDE, toFire_LONGITUDE, Eg.
  repeat split. exact Hfeat.
Qed.

Lemma getWildfireData_coordinates_from_geometry_witness :
  exists output,
    fst (getWildfireData RevList
           (mkEnv (geocodeReply liveEnv)
              (HttpResponse 200
                 (Json (mkFeatureData None
                          (Some [attributeOnlyFeature; activeFeature]))))
              (hotspotReply liveEnv) (latency liveEnv))
           freshWorld)
    = Normal output
    /\ forall fire, In fire output ->
         exists feature point,
           In feature [attributeOnlyFeature; activeFeature]
           /\ fire = toFire feature
           /\ geometry feature = Some point
           /\ prop fire "LATITUDE" = y point
           /\ prop fire "LONGITUDE" = x point.
Proof.
  apply (getWildfireData_coordinates_from_geometry RevList
           (mkEnv (geocodeReply liveEnv)
              (HttpResponse 200
                 (Json (mkFeatureData None
                          (Some [attributeOnlyFeature; activeFeature]))))
              (hotspotReply liveEnv) (latency liveEnv))
           freshWorld).
  reflexivity.
Defined.

(** X10. [geocodeAddress] uses the first candidate only, whatever follows
    it in the list: latitude is the candidate's [y], longitude its [x].  The
    call adds one request to the log, for the address followed by the
    province, and changes nothing else but the clock. *)
Theorem geocodeAddress_first_candidate :
  forall (address : string) (env : Env) (w : World) (st : Z)
         (c : Candidate) (others : list Candidate),
    geocodeReply env (address +:+ ", Newfoundland and Labrador, Canada")
    = HttpResponse st (Json (mkGeocodeData (Some (c :: others)))) ->
    (200 <= st <= 299)%Z ->
    geocodeAddress address env w
    = (Normal (mkLocation (y (location c)) (x (location c)) (score c)
                 (cand_address c)),
       issued env
         (GeocodeRequest (address +:+ ", Newfoundland and Labrador, Canada")) w).
Proof.
  intros address env w st c others Hreply Hst.
  rewrite geocodeAddress_run. unfold geocodeQuery. rewrite Hreply. simpl.
  unfold ok. simpl.
  destruct (Z.leb_spec 200 st); [|lia]. destruct (Z.leb_spec st 299); [|lia].
  reflexivity.
Qed.

Lemma geocodeAddress_first_candidate_witness :
  geocodeAddress "St. John's" twoCandidatesEnv freshWorld
  = (Normal (mkLocation (y (location stJohns)) (x (location stJohns))
               (score stJohns) (cand_address stJohns)),
     issued twoCandidatesEnv
       (GeocodeRequest ("St. John's" +:+ ", Newfoundland and Labrador, Canada"))
       freshWorld).
Proof.
  apply (geocodeAddress_first_candidate "St. John's" twoCandidatesEnv freshWorld
           200%Z stJohns [cornerBrook]); [reflexivity|lia].
Defined.

Section HotspotProperties.
Context `{Host}.

Lemma getHotspotData_fetched (env : Env) (w : World) :
  getHotspotData env w
  = (Normal (fetchedHotspots (hotspotReply env)), issued env HotspotRequest w).
Proof.
  unfold getHotspotData, fetchedHotspots, hotspotFetchFails, tryCatch, mbind,
    js_bind, fetch, json, throw.
  destruct (hotspotReply env) as [msg|st [msg|d]]; simpl.
  - reflexivity.
  - destruct (negb _); reflexivity.
  - destruct (negb (ok (mkResponse st (Json d)))); simpl; [reflexivity|].
    destruct (data_error d), (features d); reflexivity.
Qed.

(** X11. [getHotspotData] never throws and never touches the page: whatever
    the hotspot service answers, the call completes normally and the only
    change is the request in the log (and the clock).  When the transport
    fails, the status is not 2xx, the body does not parse or it has an [error]
    field or no [features] field, the result is the empty list and no error is
    shown. *)
Theorem getHotspotData_silent :
  forall (env : Env) (w : World),
    (exists hotspots,
        getHotspotData env w = (Normal hotspots, issued env HotspotRequest w))
    /\ (hotspotFetchFails (hotspotReply env) = true ->
        fst (getHotspotData env w) = Normal [])
    /\ error (snd (getHotspotData env w)) = error w
    /\ results (snd (getHotspotData env w)) = results w
    /\ sessionStorage (snd (getHotspotData env w)) = sessionStorage w.
Proof.
  intros env w. rewrite getHotspotData_fetched. repeat split.
  - eexists. reflexivity.
  - intros Hfail. unfold fetchedHotspots. rewrite Hfail. reflexivity.
Qed.

Lemma toHotspot_props (f : Feature) :
  prop (toHotspot f) "isHotspot" = JSBoolean true
  /\ prop (toHotspot f) "STATUS" = prop (attributes f) "confidence"
  /\ prop (toHotspot f) "LATITUDE" = prop (attributes f) "latitude"
  /\ prop (toHotspot f) "LONGITUDE" = prop (attributes f) "longitude"
  /\ prop (toHotspot f) "FIREID"
     = JSString ("hotspot-" +:+ ToString (prop (attributes f) "OBJECTID"))
  /\ forall k,
       ~ In k ["isHotspot"; "STATUS"; "NAME"; "FIREID"; "LONGITUDE"; "LATITUDE"] ->
       prop (toHotspot f) k = prop (attributes f) k.
Proof.
  unfold toHotspot, prop. repeat split.
  - rewrite lookup_insert_eq. reflexivity.
  - rewrite lookup_insert_ne, lookup_insert_eq by discriminate. reflexivity.
  - rewrite !lookup_insert_ne, lookup_insert_eq by discriminate. reflexivity.
  - rewrite !lookup_insert_ne, lookup_insert_eq by discriminate. reflexivity.
  - rewrite !lookup_insert_ne, lookup_insert_eq by discriminate. reflexivity.
  - intros k Hk. rewrite !lookup_insert_ne; [reflexivity|..];
      intros <-; apply Hk; simpl; tauto.
Qed.

(** X12. When the hotspot service answers with a feature list, the records
    [getHotspotData] returns are the features whose [latitude] and [longitude]
    attributes are both truthy, in feed order.  Each carries the flag
    [isHotspot], takes its coordinates from those two attributes (the
    geometry is not consulted), has the feature's [confidence] as status and
    an id that starts with "hotspot-", and keeps every attribute other than
    these and [NAME], which is overwritten too. *)
Theorem getHotspotData_records :
  forall (env : Env) (w : World),
    hotspotFetchFails (hotspotReply env) = false ->
    exists hotspots,
      fst (getHotspotData env w) = Normal hotspots
      /\ hotspots
         = List.filter coordinatesTruthy
             (map toHotspot (fetchedFeatures (hotspotReply env)))
      /\ forall h, In h hotspots ->
           exists feature,
             In feature (fetchedFeatures (hotspotReply env))
             /\ prop h "isHotspot" = JSBoolean true
             /\ ToBoolean (prop (attributes feature) "latitude") = true
             /\ ToBoolean (prop (attributes feature) "longitude") = true
             /\ prop h "LATITUDE" = prop (attributes feature) "latitude"
             /\ prop h "LONGITUDE" = prop (attributes feature) "longitude"
             /\ prop h "STATUS" = prop (attributes feature) "confidence"
             /\ (exists id, prop h "FIREID" = JSString ("hotspot-" +:+ id))
             /\ forall k,
                  ~ In k ["isHotspot"; "STATUS"; "NAME"; "FIREID"; "LONGITUDE";
                          "LATITUDE"] ->
                  prop h k = prop (attributes feature) k.
Proof.
  intros env w Hok. rewrite getHotspotData_fetched. unfold fetchedHotspots.
  rewrite Hok. eexists. split; [reflexivity|]. split; [reflexivity|].
  intros h Hin. apply filter_In in Hin as [Hin Htruthy].
  apply in_map_iff in Hin as (feature & <- & Hfeat).
  destruct (toHotspot_props feature) as (Hflag & Hst & Hlat & Hlng & Hid & Hrest).
  unfold coordinatesTruthy in Htruthy. rewrite Hlat, Hlng in Htruthy.
  apply andb_prop in Htruthy as [Ht1 Ht2].
  exists feature. repeat split; try assumption. eexists; exact Hid.
Qed.

End HotspotProperties.

Lemma getHotspotData_records_witness :
  exists hotspots,
    fst (getHotspotData (H := referenceHost) hotspotEnv freshWorld)
    = Normal hotspots
    /\ hotspots
       = List.filter coordinatesTruthy
           (map (toHotspot (H := referenceHost))
              (fetchedFeatures (hotspotReply hotspotEnv)))
    /\ forall h, In h hotspots ->
         exists feature,
           In feature (fetchedFeatures (hotspotReply hotspotEnv))
           /\ prop h "isHotspot" = JSBoolean true
           /\ ToBoolean (prop (attributes feature) "latitude") = true
           /\ ToBoolean (prop (attributes feature) "longitude") = true
           /\ prop h "LATITUDE" = prop (attributes feature) "latitude"
           /\ prop h "LONGITUDE" = prop (attributes feature) "longitude"
           /\ prop h "STATUS" = prop (attributes feature) "confidence"
           /\ (exists id, prop h "FIREID" = JSString ("hotspot-" +:+ id))
           /\ forall k,
                ~ In k ["isHotspot"; "STATUS"; "NAME"; "FIREID"; "LONGITUDE";
                        "LATITUDE"] ->
                prop h k = prop (attributes feature) k.
Proof.
  apply (getHotspotData_records (H := referenceHost) hotspotEnv freshWorld).
  reflexivity.
Defined.

(** The hotspot feed at the sample data: the hotspot without a latitude is
    dropped, the other gets its id from [OBJECTID]. *)
Example hotspot_feed_sample :
  map (fun h => (prop h "FIREID", prop h "NAME", prop h "STATUS"))
    (fetchedHotspots (H := referenceHost) (hotspotReply hotspotEnv))
  = [(JSString "hotspot-7", JSString "Thermal Hotspot (high)", JSString "high")].
Proof. vm_compute. reflexivity. Qed.

(** ** The search, step by step *)

Lemma getCachedData_payload (env : Env) (w : World) :
  getCachedData env w
  = match cachedPayload w with
    | Some (data, ts) => (Normal (Some data), withLastUpdated (Some ts) w)
    | None => (Normal None, w)
    end.
Proof.
  unfold cachedPayload.
  destruct (sessionStorage w !! "wildfireData") as [[data ts|h]|] eqn:E.
  - rewrite (getCachedData_entry _ _ _ _ E).
    destruct (_ <? _)%Z; reflexivity.
  - apply getCachedData_no_entry. intros data ts. rewrite E. discriminate.
  - apply getCachedData_no_entry. intros data ts. rewrite E. discriminate.
Qed.

Section SearchClosedForm.
Context `{Host}.

Lemma searchWildfires_geocoded (rev : Revision) (env : Env) (w : World)
  (loc : Location) :
  isBlank (address w) = false ->
  geocodeOutcome (geocodeReply env (geocodeQuery (address w))) = Normal loc ->
  searchWildfires rev env w = (Normal tt, afterSearch rev env loc w).
Proof.
  intros Hb Hgeo. rewrite (searchWildfires_nonblank _ _ _ Hb).
  unfold tryFinally, tryCatch, searchBody, mbind, js_bind.
  rewrite geocodeAddress_run, Hgeo.
  unfold afterSearch, wildfiresOf, afterCacheOrFetch, hotspotsOf, afterHotspots,
    afterGeocode.
  destruct rev; js_step; rewrite getCachedData_payload;
    match goal with
    | |- context [cachedPayload ?w1] =>
        destruct (cachedPayload w1) as [[data ts]|]
    end; js_step;
    rewrite ?getWildfireData_run, ?setCachedData_run; js_step;
    rewrite ?getHotspotData_fetched; js_step;
    match goal with
    | |- context [(length ?l =? 0)%nat] => destruct (length l =? 0)%nat
    end; js_step;
    try (destruct (negb (ToBoolean (JSString (error w)))); js_step);
    try match goal with
      | |- context [(0 <? length ?l)%nat] => destruct (0 <? length l)%nat
      end; js_step;
    try reflexivity;
    destruct (fetchFails (wildfireReply env)); reflexivity.
Qed.

Lemma searchWildfires_not_geocoded (rev : Revision) (env : Env) (w : World)
  (msg : string) :
  isBlank (address w) = false ->
  geocodeOutcome (geocodeReply env (geocodeQuery (address w))) = Throw msg ->
  searchWildfires rev env w = (Normal tt, afterGeocodeFailure env msg w).
Proof.
  intros Hb Hgeo. rewrite (searchWildfires_nonblank _ _ _ Hb).
  unfold tryFinally, tryCatch.
  rewrite (searchBody_geocode_fails _ _ _ _ _ _ Hgeo). reflexivity.
Qed.

End SearchClosedForm.

Section SearchOutcome.
Context `{Host}.

Lemma cachedPayload_afterGeocode rev env loc w :
  cachedPayload (afterGeocode rev env loc w)
  = match sessionStorage w !! "wildfireData" with
    | Some (CacheItem data ts) =>
        if (clock w + latency env (GeocodeRequest (geocodeQuery (address w))) - ts
            <? maxAge)%Z
        then Some (data, ts) else None
    | _ => None
    end.
Proof. destruct rev; reflexivity. Qed.

Lemma cachedPayload_miss rev env loc w :
  cacheFresh (clock w + latency env (GeocodeRequest (geocodeQuery (address w)))) w
  = false ->
  cachedPayload (afterGeocode rev env loc w) = None.
Proof.
  rewrite cachedPayload_afterGeocode. unfold cacheFresh.
  destruct (sessionStorage w !! "wildfireData") as [[data ts|h]|];
    try reflexivity.
  intros ->. reflexivity.
Qed.

Lemma cachedPayload_hit rev env loc w data ts :
  sessionStorage w !! "wildfireData" = Some (CacheItem data ts) ->
  (clock w + latency env (GeocodeRequest (geocodeQuery (address w))) - ts
   < maxAge)%Z ->
  cachedPayload (afterGeocode rev env loc w) = Some (data, ts).
Proof.
  intros E Hage. rewrite cachedPayload_afterGeocode, E.
  destruct (Z.ltb_spec
              (clock w + latency env (GeocodeRequest (geocodeQuery (address w)))
               - ts) maxAge); [reflexivity|lia].
Qed.

Lemma afterSearch_loading rev env loc w : loading (afterSearch rev env loc w) = false.
Proof. search_cases rev env w; reflexivity. Qed.

Lemma afterSearch_address rev env loc w :
  address (afterSearch rev env loc w) = address w.
Proof. search_cases rev env w; reflexivity. Qed.

Lemma afterSearch_results rev env loc w :
  results (afterSearch rev env loc w)
  = let wildfires := wildfiresOf rev env (afterGeocode rev env loc w) in
    if (length wildfires =? 0)%nat then []
    else firesWithDistance loc wildfires.
Proof.
  cbv zeta. unfold afterSearch, afterCacheOrFetch, hotspotsOf, afterHotspots.
  destruct (length (wildfiresOf rev env (afterGeocode rev env loc w)) =? 0)%nat;
    destruct rev; cbv zeta;
    repeat match goal with
      | |- context [(0 <? length ?l)%nat] => destruct (0 <? length l)%nat
      | |- context [negb (ToBoolean (JSString (error w)))] =>
          destruct (negb (ToBoolean (JSString (error w))))
      end; reflexivity.
Qed.

Lemma afterSearch_userLocation rev env loc w :
  userLocation (afterSearch rev env loc w)
  = match rev with
    | RevList => userLocation w
    | RevHotspot | RevMap => Some loc
    end.
Proof. search_cases rev env w; reflexivity. Qed.

Lemma afterSearch_requests rev env loc w :
  requests (afterSearch rev env loc w)
  = (requests w
     ++ GeocodeRequest (geocodeQuery (address w))
        :: match cachedPayload (afterGeocode rev env loc w) with
           | Some _ => []
           | None => [WildfireRequest]
           end
        ++ match rev with
           | RevHotspot => [HotspotRequest]
           | RevList | RevMap => []
           end)%list.
Proof.
  search_cases rev env w; simpl; rewrite <- ?app_assoc; reflexivity.
Qed.

Lemma afterSearch_cache rev env loc w :
  sessionStorage (afterSearch rev env loc w) !! "wildfireData"
  = match cachedPayload (afterGeocode rev env loc w) with
    | Some _ => sessionStorage w !! "wildfireData"
    | None =>
        Some (CacheItem (fetchedFires rev (wildfireReply env))
                (clock w + latency env (GeocodeRequest (geocodeQuery (address w)))
                 + latency env WildfireRequest))
    end.
Proof.
  search_cases rev env w; simpl;
    rewrite ?lookup_insert_ne by discriminate; rewrite ?lookup_insert_eq;
    reflexivity.
Qed.

Lemma afterSearch_lastUpdated rev env loc w :
  lastUpdated (afterSearch rev env loc w)
  = match cachedPayload (afterGeocode rev env loc w) with
    | Some (_, ts) => Some ts
    | None =>
        Some (clock w + latency env (GeocodeRequest (geocodeQuery (address w)))
              + latency env WildfireRequest)%Z
    end.
Proof. search_cases rev env w; reflexivity. Qed.

Lemma afterSearch_error rev env loc w :
  error (afterSearch rev env loc w)
  = let w1 := afterGeocode rev env loc w in
    let shown :=
      match cachedPayload w1 with
      | Some _ => ""
      | None => if fetchFails (wildfireReply env) then degradedMessage else ""
      end in
    if (length (wildfiresOf rev env w1) =? 0)%nat
    then if negb (ToBoolean (JSString (error w))) then areaClearMessage
         else shown
    else shown.
Proof.
  cbv zeta. unfold afterSearch, wildfiresOf, afterCacheOrFetch, hotspotsOf,
    afterHotspots.
  destruct (cachedPayload (afterGeocode rev env loc w)) as [[data ts]|];
    destruct rev; cbv zeta;
    repeat match goal with
      | |- context [(length ?l =? 0)%nat] => destruct (length l =? 0)%nat
      | |- context [(0 <? length ?l)%nat] => destruct (0 <? length l)%nat
      | |- context [negb (ToBoolean (JSString (error w)))] =>
          destruct (negb (ToBoolean (JSString (error w))))
      | |- context [fetchFails (wildfireReply env)] =>
          destruct (fetchFails (wildfireReply env))
      end; reflexivity.
Qed.

Lemma afterSearch_hotspots rev env loc w :
  storedHotspots (afterSearch rev env loc w)
  = match rev with
    | RevHotspot =>
        if (length (wildfiresOf rev env (afterGeocode rev env loc w)) =? 0)%nat
           && negb (0 <? length (fetchedHotspots (hotspotReply env)))%nat
        then storedHotspots w
        else Some (HotspotItem
                     (map (withDistance loc) (fetchedHotspots (hotspotReply env))))
    | RevList | RevMap => storedHotspots w
    end.
Proof.
  unfold storedHotspots, afterSearch, wildfiresOf, afterCacheOrFetch, hotspotsOf,
    afterHotspots.
  destruct (cachedPayload (afterGeocode rev env loc w)) as [[data ts]|];
    destruct rev; cbv zeta;
    repeat match goal with
      | |- context [(length ?l =? 0)%nat] => destruct (length l =? 0)%nat
      | |- context [(0 <? length ?l)%nat] => destruct (0 <? length l)%nat
      | |- context [negb (ToBoolean (JSString (error w)))] =>
          destruct (negb (ToBoolean (JSString (error w))))
      | |- context [fetchFails (wildfireReply env)] =>
          destruct (fetchFails (wildfireReply env))
      end; simpl; rewrite ?lookup_insert_eq;
    rewrite ?lookup_insert_ne by discriminate; reflexivity.
Qed.

Lemma geocodeAddress_outcome address env w c :
  fst (geocodeAddress address env w) = c ->
  geocodeOutcome (geocodeReply env (geocodeQuery address)) = c.
Proof. rewrite geocodeAddress_run. auto. Qed.

End SearchOutcome.

(** ** The search as a whole *)

Section SearchBehaviour.
Context `{Host}.

Lemma truthy_string (s : string) :
  ToBoolean (JSString s) = negb (String.eqb s "").
Proof. reflexivity. Qed.

Lemma firesWithDistance_length (loc : Location) (wildfires : list JSObject) :
  length (firesWithDistance loc wildfires) = length wildfires.
Proof.
  unfold firesWithDistance.
  rewrite <- (Permutation_length (Array_sort_perm byDistance _)).
  apply length_map.
Qed.

Lemma withDistance_active (loc : Location) (fire : JSObject) :
  isActiveFire (withDistance loc fire) = isActiveFire fire.
Proof.
  unfold isActiveFire, withDistance, prop.
  rewrite !lookup_insert_ne by discriminate. reflexivity.
Qed.

Lemma firesWithDistance_active (loc : Location) (wildfires : list JSObject) :
  forallb isActiveFire wildfires = true ->
  forallb isActiveFire (firesWithDistance loc wildfires) = true.
Proof.
  rewrite !forallb_forall. intros Hall fire Hin.
  apply Array_sort_In, in_map_iff in Hin as (fire0 & <- & Hin0).
  rewrite withDistance_active. exact (Hall fire0 Hin0).
Qed.

Lemma autoRefresh_no_entry (rev : Revision) (env : Env) (w : World) :
  sessionStorage (snd (autoRefresh rev env w)) !! "wildfireData" = None.
Proof.
  destruct rev; simpl; rewrite ?lookup_delete_ne by discriminate;
    apply lookup_delete_eq.
Qed.

(** The calls of the first search after the timer's callback. *)
Lemma search_after_autoRefresh (rev : Revision) (timerEnv env : Env) (w : World)
  (loc : Location) :
  isBlank (address w) = false ->
  geocodeOutcome (geocodeReply env (geocodeQuery (address w))) = Normal loc ->
  requests (snd (searchWildfires rev env (snd (autoRefresh rev timerEnv w))))
  = (requests w
     ++ GeocodeRequest (geocodeQuery (address w))
        :: WildfireRequest
        :: match rev with
           | RevHotspot => [HotspotRequest]
           | RevList | RevMap => []
           end)%list.
Proof.
  intros Hb Hgeo.
  assert (Haddr : address (snd (autoRefresh rev timerEnv w)) = address w)
    by (destruct rev; reflexivity).
  assert (Hreq : requests (snd (autoRefresh rev timerEnv w)) = requests w)
    by (destruct rev; reflexivity).
  rewrite <- Haddr in Hb, Hgeo.
  rewrite (searchWildfires_geocoded _ _ _ _ Hb Hgeo). cbn [fst snd].
  rewrite afterSearch_requests, cachedPayload_afterGeocode, autoRefresh_no_entry,
    Haddr, Hreq.
  reflexivity.
Qed.

(** X13. [searchWildfires] never throws: whatever the address and whatever
    the three services answer, it completes normally.  It leaves the address
    box alone, and after a search for a non-blank address the loading flag is
    off, also when the geocoder failed; a blank address does not touch the
    flag. *)
Theorem searchWildfires_completes :
  forall (rev : Revision) (env : Env) (w : World),
    fst (searchWildfires rev env w) = Normal tt
    /\ address (snd (searchWildfires rev env w)) = address w
    /\ loading (snd (searchWildfires rev env w))
       = (if isBlank (address w) then loading w else false).
Proof.
  intros rev env w. destruct (isBlank (address w)) eqn:Hb.
  - rewrite (searchWildfires_blank _ _ _ Hb). repeat split.
  - destruct (geocodeOutcome (geocodeReply env (geocodeQuery (address w))))
      as [loc|msg] eqn:Hgeo.
    + rewrite (searchWildfires_geocoded _ _ _ _ Hb Hgeo). cbn [fst snd].
      rewrite afterSearch_address, afterSearch_loading. repeat split.
    + rewrite (searchWildfires_not_geocoded _ _ _ _ Hb Hgeo). repeat split.
Qed.

(** X14. A search for a non-blank address calls the geocoder first, with
    the address as typed (not trimmed) followed by the province, and then at
    most the wildfire service and the hotspot service, in that order.  The
    hotspot service is called by the revision with the hotspot feed only. *)
Theorem searchWildfires_call_order :
  forall (rev : Revision) (env : Env) (w : World),
    isBlank (address w) = false ->
    exists rest,
      requests (snd (searchWildfires rev env w))
      = (requests w
         ++ GeocodeRequest (address w +:+ ", Newfoundland and Labrador, Canada")
            :: rest)%list
      /\ In rest [[]; [WildfireRequest]; [HotspotRequest];
                  [WildfireRequest; HotspotRequest]]
      /\ (In HotspotRequest rest -> rev = RevHotspot).
Proof.
  intros rev env w Hb.
  destruct (geocodeOutcome (geocodeReply env (geocodeQuery (address w))))
    as [loc|msg] eqn:Hgeo.
  - rewrite (searchWildfires_geocoded _ _ _ _ Hb Hgeo). cbn [fst snd].
    rewrite afterSearch_requests. eexists. split; [reflexivity|].
    destruct (cachedPayload _) as [[data ts]|]; destruct rev; simpl;
      (split; [tauto|]); intros Hin;
      repeat (destruct Hin as [E|Hin]; [try discriminate; try reflexivity|]);
      try reflexivity; try destruct Hin.
  - rewrite (searchWildfires_not_geocoded _ _ _ _ Hb Hgeo). cbn [fst snd].
    exists []. split; [reflexivity|]. split; [simpl; tauto|]. intros [].
Qed.

(** X15. When the geocoder fails, the search clears the results of the
    previous search and shows the geocoder's message; it leaves the session
    storage (the cache included), the map location and the last-updated stamp
    as they were, and the geocoder call is the only call made. *)
Theorem searchWildfires_geocode_failure_state :
  forall (rev : Revision) (env : Env) (w : World) (message : string),
    isBlank (address w) = false ->
    fst (geocodeAddress (address w) env w) = Throw message ->
    let w' := snd (searchWildfires rev env w) in
    results w' = []
    /\ error w' = message
    /\ loading w' = false
    /\ sessionStorage w' = sessionStorage w
    /\ userLocation w' = userLocation w
    /\ lastUpdated w' = lastUpdated w
    /\ requests w' = (requests w ++ [GeocodeRequest (geocodeQuery (address w))])%list.
Proof.
  intros rev env w message Hb Hgeo w'. subst w'.
  apply geocodeAddress_outcome in Hgeo.
  rewrite (searchWildfires_not_geocoded _ _ _ _ Hb Hgeo). repeat split.
Qed.

(** X16. A search whose geocoding succeeds, whose cache check misses and
    whose fetch succeeds with at least one active fire shows those fires
    ranked, shows no message, and stores exactly the fetched list in the
    cache, stamped with the clock at the end of the fetch; the last-updated
    stamp is that clock. *)
Theorem searchWildfires_live_fetch :
  forall (rev : Revision) (env : Env) (w : World) (loc : Location),
    isBlank (address w) = false ->
    fst (geocodeAddress (address w) env w) = Normal loc ->
    cacheFresh (clock w + latency env (GeocodeRequest (geocodeQuery (address w)))) w
    = false ->
    fetchFails (wildfireReply env) = false ->
    let active :=
      List.filter isActiveFire (map toFire (fetchedFeatures (wildfireReply env))) in
    let storedAt :=
      (clock w + latency env (GeocodeRequest (geocodeQuery (address w)))
       + latency env WildfireRequest)%Z in
    active <> [] ->
    let w' := snd (searchWildfires rev env w) in
    results w' = firesWithDistance loc active
    /\ length (results w') = length active
    /\ error w' = ""
    /\ sessionStorage w' !! "wildfireData" = Some (CacheItem active storedAt)
    /\ lastUpdated w' = Some storedAt.
Proof.
  intros rev env w loc Hb Hgeo Hmiss Hok active storedAt Hne w'. subst w'.
  apply geocodeAddress_outcome in Hgeo.
  rewrite (searchWildfires_geocoded _ _ _ _ Hb Hgeo). cbn [fst snd].
  rewrite afterSearch_results, afterSearch_error, afterSearch_cache,
    afterSearch_lastUpdated.
  cbv zeta. unfold wildfiresOf.
  rewrite (cachedPayload_miss _ _ _ _ Hmiss). unfold fetchedFires.
  rewrite Hok. fold active.
  destruct active as [|fire active']; [contradiction|]. simpl length.
  change (S (length active') =? 0)%nat with false. cbv iota.
  rewrite firesWithDistance_length. repeat split.
Qed.

(** X17. A search that finds no active fire (geocoding succeeds, the cache
    check misses, the fetch succeeds and nothing passes the filter) shows an
    empty list and caches the empty list.  The message that the area is clear
    appears only if no error was on display when the search was started: the
    handler tests the error it captured at the last render, so after a search
    that had shown an error the same search ends with no message at all and
    the page shows the prompt to enter an address. *)
Theorem searchWildfires_area_clear :
  forall (rev : Revision) (env : Env) (w : World) (loc : Location),
    isBlank (address w) = false ->
    fst (geocodeAddress (address w) env w) = Normal loc ->
    cacheFresh (clock w + latency env (GeocodeRequest (geocodeQuery (address w)))) w
    = false ->
    fetchFails (wildfireReply env) = false ->
    List.filter isActiveFire (map toFire (fetchedFeatures (wildfireReply env)))
    = [] ->
    let w' := snd (searchWildfires rev env w) in
    results w' = []
    /\ error w' = (if String.eqb (error w) "" then areaClearMessage else "")
    /\ emptyPrompt w' = negb (String.eqb (error w) "")
    /\ exists storedAt,
         sessionStorage w' !! "wildfireData" = Some (CacheItem [] storedAt).
Proof.
  intros rev env w loc Hb Hgeo Hmiss Hok Hnone w'. subst w'.
  apply geocodeAddress_outcome in Hgeo.
  rewrite (searchWildfires_geocoded _ _ _ _ Hb Hgeo). cbn [fst snd].
  unfold emptyPrompt.
  rewrite afterSearch_results, afterSearch_error, afterSearch_cache,
    afterSearch_loading.
  cbv zeta. unfold wildfiresOf.
  rewrite (cachedPayload_miss _ _ _ _ Hmiss). unfold fetchedFires.
  rewrite Hok, Hnone, truthy_string. simpl.
  destruct (String.eqb (error w) ""); simpl; repeat split; eexists; reflexivity.
Qed.

(** X18. A search whose cache check, made once the geocoder has answered,
    finds an entry younger than ten minutes works on the cached list, whatever
    it is (the empty list included): it ranks and shows that list, contacts
    the wildfire service not at all, leaves the entry in place, and sets the
    last-updated stamp to the time the entry was stored, not to the time of
    this search. *)
Theorem searchWildfires_cache_reuse :
  forall (rev : Revision) (env : Env) (w : World) (loc : Location)
         (data : list JSObject) (ts : Z),
    isBlank (address w) = false ->
    fst (geocodeAddress (address w) env w) = Normal loc ->
    sessionStorage w !! "wildfireData" = Some (CacheItem data ts) ->
    (clock w + latency env (GeocodeRequest (geocodeQuery (address w))) - ts
     < maxAge)%Z ->
    let w' := snd (searchWildfires rev env w) in
    results w' = (if (length data =? 0)%nat then [] else firesWithDistance loc data)
    /\ lastUpdated w' = Some ts
    /\ sessionStorage w' !! "wildfireData" = Some (CacheItem data ts)
    /\ requests w' = (requests w ++ callsOnCacheHit rev (address w))%list
    /\ error w'
       = (if (length data =? 0)%nat && String.eqb (error w) ""
          then areaClearMessage else "").
Proof.
  intros rev env w loc data ts Hb Hgeo Hentry Hage w'. subst w'.
  apply geocodeAddress_outcome in Hgeo.
  rewrite (searchWildfires_geocoded _ _ _ _ Hb Hgeo). cbn [fst snd].
  rewrite afterSearch_results, afterSearch_error, afterSearch_cache,
    afterSearch_lastUpdated, afterSearch_requests.
  cbv zeta. unfold wildfiresOf.
  rewrite (cachedPayload_hit _ _ _ _ _ _ Hentry Hage), truthy_string.
  unfold callsOnCacheHit.
  destruct (length data =? 0)%nat, (String.eqb (error w) ""); simpl;
    repeat split; assumption.
Qed.

(** X19. The ten-minute timer empties the cache without touching what is on
    the page or the request log: results, error and last-updated stamp stay.
    The next search whose geocoding succeeds calls the wildfire service again,
    however young the entry was when the timer fired: the calls it adds to the
    log are the geocoder call, then the wildfire call, then (in the revision
    with the hotspot feed) the hotspot call. *)
Theorem autoRefresh_forces_refetch :
  forall (rev : Revision) (timerEnv env : Env) (w : World) (loc : Location),
    let cleared := snd (autoRefresh rev timerEnv w) in
    isBlank (address w) = false ->
    fst (geocodeAddress (address w) env cleared) = Normal loc ->
    results cleared = results w
    /\ error cleared = error w
    /\ lastUpdated cleared = lastUpdated w
    /\ requests cleared = requests w
    /\ sessionStorage cleared !! "wildfireData" = None
    /\ requests (snd (searchWildfires rev env cleared))
       = (requests w
          ++ GeocodeRequest (geocodeQuery (address w))
             :: WildfireRequest
             :: match rev with
                | RevHotspot => [HotspotRequest]
                | RevList | RevMap => []
                end)%list.
Proof.
  intros rev timerEnv env w loc cleared Hb Hgeo.
  assert (Haddr : address cleared = address w) by (destruct rev; reflexivity).
  rewrite <- Haddr in Hgeo. apply geocodeAddress_outcome in Hgeo.
  rewrite Haddr in Hgeo.
  repeat split; try (subst cleared; destruct rev; reflexivity).
  - apply autoRefresh_no_entry.
  - apply (search_after_autoRefresh rev timerEnv env w loc Hb Hgeo).
Qed.

(** X20. The degraded-mode banner is shown once per cache entry.  A search
    whose fetch fails shows the fallback list with the message that live data
    could not be fetched; a later search that finds the cached fallback within
    ten minutes shows the same fallback records, ranked, with no message. *)
Theorem degraded_banner_not_repeated :
  forall (rev : Revision) (env1 env2 : Env) (w : World) (loc1 loc2 : Location)
         (address2 : string) (dt : Z),
    isBlank (address w) = false ->
    fst (geocodeAddress (address w) env1 w) = Normal loc1 ->
    cacheFresh
      (clock w + latency env1 (GeocodeRequest (geocodeQuery (address w)))) w
    = false ->
    fetchFails (wildfireReply env1) = true ->
    let w1 := snd (searchWildfires rev env1 w) in
    let w2 :=
      snd (searchWildfires rev env2 (withAddress address2 (elapse dt w1))) in
    isBlank address2 = false ->
    fst (geocodeAddress address2 env2 w1) = Normal loc2 ->
    (clock w1 + dt + latency env2 (GeocodeRequest (geocodeQuery address2))
     - (clock w + latency env1 (GeocodeRequest (geocodeQuery (address w)))
        + latency env1 WildfireRequest)
     < maxAge)%Z ->
    results w1 = firesWithDistance loc1 (fallbackFires rev)
    /\ error w1 = degradedMessage
    /\ results w2 = firesWithDistance loc2 (fallbackFires rev)
    /\ error w2 = "".
Proof.
  intros rev env1 env2 w loc1 loc2 address2 dt Hb Hgeo Hmiss Hfail w1 w2 Hb2
    Hgeo2 Hage.
  apply geocodeAddress_outcome in Hgeo, Hgeo2.
  destruct (searchWildfires_degraded rev env1 w loc1 Hb Hgeo Hmiss Hfail)
    as (Hres & Herr & Hstore & _).
  fold w1 in Hres, Herr, Hstore. split; [exact Hres|]. split; [exact Herr|].
  destruct (searchWildfires_cache_hit rev env2
              (withAddress address2 (elapse dt w1)) loc2 (fallbackFires rev) _
              Hb2 Hgeo2 Hstore Hage (fallbackFires_nonempty rev))
    as (Hres2 & Herr2 & _).
  split; assumption.
Qed.

(** X21. Every record on the page and in the cache passes the fetcher's
    filter, and a search keeps it so: if the shown and the cached records all
    have truthy coordinates and an active status before [searchWildfires],
    they all do afterwards, whatever the services answer; likewise after the
    timer's callback. *)
Theorem searchWildfires_keeps_active :
  forall (rev : Revision) (env : Env) (w : World),
    onlyActiveFires w = true ->
    onlyActiveFires (snd (searchWildfires rev env w)) = true
    /\ onlyActiveFires (snd (autoRefresh rev env w)) = true.
Proof.
  intros rev env w Hinv. unfold onlyActiveFires in *.
  apply andb_prop in Hinv as [Hres Hcache]. split.
  - destruct (isBlank (address w)) eqn:Hb.
    { rewrite (searchWildfires_blank _ _ _ Hb). simpl.
      unfold cachedFires in *. simpl. rewrite Hres, Hcache. reflexivity. }
    destruct (geocodeOutcome (geocodeReply env (geocodeQuery (address w))))
      as [loc|msg] eqn:Hgeo.
    + rewrite (searchWildfires_geocoded _ _ _ _ Hb Hgeo). cbn [fst snd].
      unfold cachedFires in *.
      rewrite afterSearch_results, afterSearch_cache. cbv zeta.
      unfold wildfiresOf. rewrite cachedPayload_afterGeocode.
      destruct (sessionStorage w !! "wildfireData") as [[data ts|h]|] eqn:E.
      * destruct (_ <? _)%Z.
        -- rewrite Hcache, andb_true_r.
           destruct (length data =? 0)%nat; [reflexivity|].
           apply firesWithDistance_active, Hcache.
        -- rewrite fetchedFires_active, andb_true_r.
           destruct (length _ =? 0)%nat; [reflexivity|].
           apply firesWithDistance_active, fetchedFires_active.
      * rewrite fetchedFires_active, andb_true_r.
        destruct (length _ =? 0)%nat; [reflexivity|].
        apply firesWithDistance_active, fetchedFires_active.
      * rewrite fetchedFires_active, andb_true_r.
        destruct (length _ =? 0)%nat; [reflexivity|].
        apply firesWithDistance_active, fetchedFires_active.
    + rewrite (searchWildfires_not_geocoded _ _ _ _ Hb Hgeo). cbn [fst snd].
      unfold cachedFires in *. simpl. exact Hcache.
  - unfold cachedFires.
    replace (sessionStorage (snd (autoRefresh rev env w)) !! "wildfireData")
      with (@None StorageItem).
    + replace (results (snd (autoRefresh rev env w))) with (results w)
        by (destruct rev; reflexivity).
      rewrite Hres. reflexivity.
    + symmetry. destruct rev; simpl;
        rewrite ?lookup_delete_ne by discriminate; apply lookup_delete_eq.
Qed.

(** X22. What the hotspot service answers has no effect on the search
    itself: the results, the message, the loading flag, the cache entry, the
    last-updated stamp and the map location are the same for any two replies
    of the hotspot service. *)
Theorem hotspots_do_not_affect_results :
  forall (rev : Revision) (env : Env) (w : World) (reply : Reply FeatureData),
    let w1 := snd (searchWildfires rev env w) in
    let w2 := snd (searchWildfires rev (withHotspotReply reply env) w) in
    results w2 = results w1
    /\ error w2 = error w1
    /\ loading w2 = loading w1
    /\ sessionStorage w2 !! "wildfireData" = sessionStorage w1 !! "wildfireData"
    /\ lastUpdated w2 = lastUpdated w1
    /\ userLocation w2 = userLocation w1.
Proof.
  intros rev env w reply w1 w2. subst w1 w2.
  destruct (isBlank (address w)) eqn:Hb.
  { rewrite !(searchWildfires_blank _ _ _ Hb). repeat split. }
  destruct (geocodeOutcome (geocodeReply env (geocodeQuery (address w))))
    as [loc|msg] eqn:Hgeo.
  - rewrite (searchWildfires_geocoded rev env w loc Hb Hgeo).
    rewrite (searchWildfires_geocoded rev (withHotspotReply reply env) w loc
               Hb Hgeo).
    cbn [fst snd].
    rewrite !afterSearch_results, !afterSearch_error, !afterSearch_cache,
      !afterSearch_lastUpdated, !afterSearch_userLocation, !afterSearch_loading.
    repeat split.
  - rewrite (searchWildfires_not_geocoded rev env w msg Hb Hgeo).
    rewrite (searchWildfires_not_geocoded rev (withHotspotReply reply env) w msg
               Hb Hgeo).
    repeat split.
Qed.

(** X23. The hotspot list kept for the map.  In the revision with the
    hotspot feed a search that shows fires always overwrites the stored list
    with the hotspots just fetched, each with its distance, also when none was
    fetched.  A search that shows no fire overwrites it only when at least one
    hotspot was fetched; otherwise the list of an earlier search stays in
    storage.  The other two revisions never write it. *)
Theorem searchWildfires_stored_hotspots :
  forall (rev : Revision) (env : Env) (w : World) (loc : Location)
         (hotspots : list JSObject),
    isBlank (address w) = false ->
    fst (geocodeAddress (address w) env w) = Normal loc ->
    fst (getHotspotData env w) = Normal hotspots ->
    let w' := snd (searchWildfires rev env w) in
    (rev = RevHotspot ->
     results w' <> [] \/ hotspots <> [] ->
     storedHotspots w' = Some (HotspotItem (map (withDistance loc) hotspots)))
    /\ (rev = RevHotspot ->
        results w' = [] -> hotspots = [] ->
        storedHotspots w' = storedHotspots w)
    /\ (rev <> RevHotspot -> storedHotspots w' = storedHotspots w).
Proof.
  intros rev env w loc hotspots Hb Hgeo Hhs w'. subst w'.
  apply geocodeAddress_outcome in Hgeo.
  rewrite getHotspotData_fetched in Hhs. simpl in Hhs. injection Hhs as Hhs.
  rewrite (searchWildfires_geocoded _ _ _ _ Hb Hgeo). cbn [fst snd].
  rewrite afterSearch_results, afterSearch_hotspots. cbv zeta. rewrite Hhs.
  split; [|split].
  - intros -> Hsome.
    destruct (length (wildfiresOf _ _ _) =? 0)%nat eqn:El; [|reflexivity].
    destruct Hsome as [Hres|Hne]; [contradiction|].
    destruct hotspots; [contradiction|reflexivity].
  - intros -> Hres ->.
    destruct (length (wildfiresOf _ _ _) =? 0)%nat eqn:El; [reflexivity|].
    exfalso. apply Nat.eqb_neq in El. apply El.
    rewrite <- (firesWithDistance_length loc), Hres. reflexivity.
  - intros Hrev. destruct rev; [reflexivity|contradiction|reflexivity].
Qed.

(** X24. In the revision with the hotspot feed the map follows the
    geocoder, not the fire data.  A search whose geocoding succeeds records
    the location, so [InteractiveMap] is centred on the first candidate at
    zoom 9, whatever the wildfire fetch does afterwards.  A search whose
    geocoding fails leaves the recorded location alone, so the map keeps its
    centre and zoom: the default centre at zoom 6 if no search has succeeded
    yet. *)
Theorem map_follows_geocoder :
  forall (env : Env) (w : World),
    isBlank (address w) = false ->
    let w' := snd (searchWildfires RevHotspot env w) in
    let center := mapCenter InteractiveMap_defaultCenter in
    (forall loc,
        fst (geocodeAddress (address w) env w) = Normal loc ->
        userLocation w' = Some loc
        /\ center (userLocation w') = (lat loc, lng loc)
        /\ mapZoom (userLocation w') = 9%Z)
    /\ (forall message,
           fst (geocodeAddress (address w) env w) = Throw message ->
           userLocation w' = userLocation w
           /\ center (userLocation w') = center (userLocation w)
           /\ mapZoom (userLocation w') = mapZoom (userLocation w)
           /\ (userLocation w = None ->
               center (userLocation w') = (JSNumber 48.5, JSNumber (-56.5))
               /\ mapZoom (userLocation w') = 6%Z)).
Proof.
  intros env w Hb w' center. subst w' center. split.
  - intros loc Hgeo. apply geocodeAddress_outcome in Hgeo.
    rewrite (searchWildfires_geocoded _ _ _ _ Hb Hgeo). cbn [fst snd].
    rewrite afterSearch_userLocation. repeat split.
  - intros message Hgeo. apply geocodeAddress_outcome in Hgeo.
    rewrite (searchWildfires_not_geocoded _ _ _ _ Hb Hgeo). cbn [fst snd].
    change (userLocation (afterGeocodeFailure env message w))
      with (userLocation w).
    split; [reflexivity|split; [reflexivity|split; [reflexivity|]]].
    intros Hnone. rewrite Hnone. split; reflexivity.
Qed.

End SearchBehaviour.

(** ** The further properties at the sample data *)

Lemma active_fire_display_witness :
  In (getStatusText (prop fallbackTrinity "STATUS"))
    ["Out-of-Control"; "Being Held"; "Under Control"]
  /\ getStatusColor RevHotspot (prop fallbackTrinity "STATUS")
     <> "text-gray-700 bg-gray-100 border-gray-300"
  /\ getMarkerColor (prop fallbackTrinity "STATUS") <> "#6b7280"
  /\ WildfireMap_getStatusColor (prop fallbackTrinity "STATUS") <> "gray".
Proof. apply (active_fire_display RevHotspot fallbackTrinity). reflexivity. Defined.

Lemma searchWildfires_call_order_witness :
  exists rest,
    requests (snd (searchWildfires (H := referenceHost) RevHotspot liveEnv
                     (typedWorld "St. John's")))
    = (requests (typedWorld "St. John's")
       ++ GeocodeRequest
            (address (typedWorld "St. John's")
             +:+ ", Newfoundland and Labrador, Canada")
          :: rest)%list
    /\ In rest [[]; [WildfireRequest]; [HotspotRequest];
                [WildfireRequest; HotspotRequest]]
    /\ (In HotspotRequest rest -> RevHotspot = RevHotspot).
Proof.
  apply (searchWildfires_call_order (H := referenceHost) RevHotspot liveEnv
           (typedWorld "St. John's")).
  reflexivity.
Defined.

Lemma searchWildfires_geocode_failure_state_witness :
  results (snd (searchWildfires (H := referenceHost) RevMap nowhereEnv
                  (typedWorld "Atlantis")))
  = []
  /\ sessionStorage (snd (searchWildfires (H := referenceHost) RevMap nowhereEnv
                            (typedWorld "Atlantis")))
     = sessionStorage (typedWorld "Atlantis")
  /\ userLocation (snd (searchWildfires (H := referenceHost) RevMap nowhereEnv
                          (typedWorld "Atlantis")))
     = userLocation (typedWorld "Atlantis").
Proof.
  destruct (searchWildfires_geocode_failure_state (H := referenceHost) RevMap
              nowhereEnv (typedWorld "Atlantis") addressNotFoundError)
    as (Hres & _ & _ & Hstore & Hloc & _); [reflexivity|reflexivity|].
  split; [exact Hres|split; [exact Hstore|exact Hloc]].
Defined.

Lemma searchWildfires_live_fetch_witness :
  error (snd (searchWildfires (H := referenceHost) RevList liveEnv
                (typedWorld "St. John's")))
  = ""
  /\ sessionStorage (snd (searchWildfires (H := referenceHost) RevList liveEnv
                            (typedWorld "St. John's")))
       !! "wildfireData"
     = Some (CacheItem (List.filter isActiveFire (map toFire sampleFeed)) 400)
  /\ length (results (snd (searchWildfires (H := referenceHost) RevList liveEnv
                             (typedWorld "St. John's"))))
     = 2.
Proof.
  destruct (searchWildfires_live_fetch (H := referenceHost) RevList liveEnv
              (typedWorld "St. John's") stJohnsLocation)
    as (_ & Hlen & Herr & Hstore & _);
    [reflexivity|reflexivity|reflexivity|reflexivity|vm_compute; discriminate|].
  split; [exact Herr|split; [exact Hstore|exact Hlen]].
Defined.

Lemma searchWildfires_area_clear_witness :
  error (snd (searchWildfires (H := referenceHost) RevList quietEnv
                (withAddress "St. John's"
                   (snd (searchWildfires (H := referenceHost) RevList quietEnv
                           (typedWorld "   "))))))
  = ""
  /\ emptyPrompt
       (snd (searchWildfires (H := referenceHost) RevList quietEnv
               (withAddress "St. John's"
                  (snd (searchWildfires (H := referenceHost) RevList quietEnv
                          (typedWorld "   "))))))
     = true
  /\ error (snd (searchWildfires (H := referenceHost) RevList quietEnv
                   (typedWorld "St. John's")))
     = areaClearMessage.
Proof.
  destruct (searchWildfires_area_clear (H := referenceHost) RevList quietEnv
              (withAddress "St. John's"
                 (snd (searchWildfires (H := referenceHost) RevList quietEnv
                         (typedWorld "   "))))
              stJohnsLocation)
    as (_ & Herr & Hprompt & _);
    [reflexivity|reflexivity|reflexivity|reflexivity|reflexivity|].
  destruct (searchWildfires_area_clear (H := referenceHost) RevList quietEnv
              (typedWorld "St. John's") stJohnsLocation)
    as (_ & Herr0 & _);
    [reflexivity|reflexivity|reflexivity|reflexivity|reflexivity|].
  split; [exact Herr|split; [exact Hprompt|exact Herr0]].
Defined.

Lemma searchWildfires_cache_reuse_witness :
  lastUpdated
    (snd (searchWildfires (H := referenceHost) RevList degradedEnv
            (withAddress "Gander"
               (elapse 300000
                  (snd (searchWildfires (H := referenceHost) RevList liveEnv
                          (typedWorld "St. John's")))))))
  = Some 400%Z
  /\ requests
       (snd (searchWildfires (H := referenceHost) RevList degradedEnv
               (withAddress "Gander"
                  (elapse 300000
                     (snd (searchWildfires (H := referenceHost) RevList liveEnv
                             (typedWorld "St. John's")))))))
     = [GeocodeRequest (geocodeQuery "St. John's"); WildfireRequest;
        GeocodeRequest (geocodeQuery "Gander")].
Proof.
  destruct (searchWildfires_cache_reuse (H := referenceHost) RevList degradedEnv
              (withAddress "Gander"
                 (elapse 300000
                    (snd (searchWildfires (H := referenceHost) RevList liveEnv
                            (typedWorld "St. John's")))))
              stJohnsLocation
              (List.filter isActiveFire (map toFire sampleFeed)) 400%Z)
    as (_ & Hstamp & _ & Hcalls & _);
    [reflexivity|reflexivity|reflexivity|reflexivity|].
  split; [exact Hstamp|]. rewrite Hcalls. reflexivity.
Defined.

Lemma autoRefresh_forces_refetch_witness :
  requests
    (snd (searchWildfires (H := referenceHost) RevHotspot liveEnv
            (snd (autoRefresh RevHotspot liveEnv
                    (snd (searchWildfires (H := referenceHost) RevHotspot
                            liveEnv (typedWorld "St. John's")))))))
  = [GeocodeRequest (geocodeQuery "St. John's"); WildfireRequest; HotspotRequest;
     GeocodeRequest (geocodeQuery "St. John's"); WildfireRequest; HotspotRequest].
Proof.
  destruct (autoRefresh_forces_refetch (H := referenceHost) RevHotspot liveEnv
              liveEnv
              (snd (searchWildfires (H := referenceHost) RevHotspot liveEnv
                      (typedWorld "St. John's")))
              stJohnsLocation)
    as (_ & _ & _ & _ & _ & Hcalls); [reflexivity|reflexivity|].
  rewrite Hcalls. reflexivity.
Defined.

Lemma degraded_banner_not_repeated_witness :
  error (snd (searchWildfires (H := referenceHost) RevList degradedEnv
                (typedWorld "St. John's")))
  = degradedMessage
  /\ error (snd (searchWildfires (H := referenceHost) RevList liveEnv
                   (withAddress "Gander"
                      (elapse 300000
                         (snd (searchWildfires (H := referenceHost) RevList
                                 degradedEnv (typedWorld "St. John's")))))))
     = "".
Proof.
  destruct (degraded_banner_not_repeated (H := referenceHost) RevList
              degradedEnv liveEnv (typedWorld "St. John's") stJohnsLocation
              stJohnsLocation "Gander" 300000%Z)
    as (_ & Hfirst & _ & Hsecond);
    [reflexivity|reflexivity|reflexivity|reflexivity|reflexivity|reflexivity
    |reflexivity|].
  split; [exact Hfirst|exact Hsecond].
Defined.

Lemma searchWildfires_keeps_active_witness :
  onlyActiveFires
    (snd (searchWildfires (H := referenceHost) RevList liveEnv
            (typedWorld "St. John's")))
  = true.
Proof.
  apply (searchWildfires_keeps_active (H := referenceHost) RevList liveEnv
           (typedWorld "St. John's")).
  reflexivity.
Defined.

Lemma searchWildfires_stored_hotspots_witness :
  storedHotspots
    (snd (searchWildfires (H := referenceHost) RevHotspot hotspotEnv
            (typedWorld "St. John's")))
  = Some (HotspotItem
            (map (withDistance (H := referenceHost) stJohnsLocation)
               (fetchedHotspots (H := referenceHost) (hotspotReply hotspotEnv)))).
Proof.
  destruct (searchWildfires_stored_hotspots (H := referenceHost) RevHotspot
              hotspotEnv (typedWorld "St. John's") stJohnsLocation
              (fetchedHotspots (H := referenceHost) (hotspotReply hotspotEnv)))
    as (Hstored & _); [reflexivity|reflexivity|reflexivity|].
  apply Hstored; [reflexivity|]. right. vm_compute. discriminate.
Defined.

Lemma map_follows_geocoder_witness :
  mapCenter InteractiveMap_defaultCenter
    (userLocation (snd (searchWildfires (H := referenceHost) RevHotspot
                          degradedEnv (typedWorld "St. John's"))))
  = (JSNumber 47.5614, JSNumber (-52.7125))
  /\ mapZoom
       (userLocation (snd (searchWildfires (H := referenceHost) RevHotspot
                             degradedEnv (typedWorld "St. John's"))))
     = 9%Z
  /\ mapZoom
       (userLocation (snd (searchWildfires (H := referenceHost) RevHotspot
                             nowhereEnv (typedWorld "Atlantis"))))
     = 6%Z.
Proof.
  destruct (map_follows_geocoder (H := referenceHost) degradedEnv
              (typedWorld "St. John's")) as [Hfound _]; [reflexivity|].
  destruct (Hfound stJohnsLocation) as (_ & Hcenter & Hzoom); [reflexivity|].
  destruct (map_follows_geocoder (H := referenceHost) nowhereEnv
              (typedWorld "Atlantis")) as [_ Hfailed]; [reflexivity|].
  destruct (Hfailed addressNotFoundError) as (_ & _ & _ & Hdefault);
    [reflexivity|].
  destruct Hdefault as [_ Hzoom6]; [reflexivity|].
  split; [exact Hcenter|split; [exact Hzoom|exact Hzoom6]].
Defined.

(** A session in the revision with the hotspot feed: a search that finds
    fires and a hotspot, then the timer, then a search while every fire
    service is quiet.  The first search stores the hotspot for the map; the
    timer removes it together with the cache; the second search shows no
    fire and says that the area is clear. *)
Example hotspot_session :
  let w1 := snd (searchWildfires (H := referenceHost) RevHotspot hotspotEnv
                   (typedWorld "St. John's")) in
  let w2 := snd (autoRefresh RevHotspot hotspotEnv w1) in
  let w3 := snd (searchWildfires (H := referenceHost) RevHotspot quietEnv w2) in
  map (fun fire => prop fire "FIREID") (results w1) = [JSString "F1"; JSString "F5"]
  /\ (exists stored, storedHotspots w1 = Some (HotspotItem stored)
                     /\ length stored = 1)
  /\ storedHotspots w2 = None
  /\ results w2 = results w1
  /\ results w3 = []
  /\ error w3 = areaClearMessage
  /\ storedHotspots w3 = None.
Proof.
  vm_compute. repeat split. eexists. split; reflexivity.
Qed.

(** ** Ranking *)


Section RankingProperties.
Context `{Host}.




End RankingProperties.


(** The tie at the sample data: the two fires at the same place come first,
    in fetch order, at the same distance. *)
Example ties_keep_fetch_order :
  map (fun a => prop a "FIREID")
    (results (snd (searchWildfires (H := referenceHost) RevList tiedEnv
                     (typedWorld "St. John's"))))
  = [JSString "F1"; JSString "F7"; JSString "F5"]
  /\ map (fun a => PrimFloat.eqb (distanceOf (H := referenceHost) a)
                     (distanceOf (H := referenceHost)
                        (withDistance (H := referenceHost) stJohnsLocation
                           (toFire activeFeature))))
       (results (snd (searchWildfires (H := referenceHost) RevList tiedEnv
                        (typedWorld "St. John's"))))
     = [true; true; false].
Proof. vm_compute. split; reflexivity. Qed.


(** ** The cached fallback *)

Section CachedFallback.
Context `{Host}.

(** C10 (as amended). When the live fetch fails, [searchWildfires] stores the
    fallback list in the cache, stamped with the clock at that moment.  Idle
    time and typing leave the entry where it is.  Every later search that
    still finds the entry and checks the cache less than ten minutes after
    the stamp does not call the wildfire service and leaves the entry in
    place; when its geocoding succeeds it shows the cached fallback list,
    ranked.  The component's refresh timer removes the entry when it fires,
    whatever the entry's age, and the first search after that whose geocoding
    succeeds calls the wildfire service again. *)
Theorem fallback_cached_and_reused :
  forall (rev : Revision) (env1 : Env) (w : World) (loc1 : Location),
    isBlank (address w) = false ->
    geocodeOutcome (geocodeReply env1 (geocodeQuery (address w))) = Normal loc1 ->
    cacheFresh
      (clock w + latency env1 (GeocodeRequest (geocodeQuery (address w)))) w
    = false ->
    fetchFails (wildfireReply env1) = true ->
    let w1 := snd (searchWildfires rev env1 w) in
    let storedAt :=
      (clock w + latency env1 (GeocodeRequest (geocodeQuery (address w)))
       + latency env1 WildfireRequest)%Z in
    let entry := Some (CacheItem (fallbackFires rev) storedAt) in
    sessionStorage w1 !! "wildfireData" = entry
    /\ (forall (address2 : string) (dt : Z),
           sessionStorage (withAddress address2 (elapse dt w1)) !! "wildfireData"
           = entry)
    /\ (forall (env2 : Env) (w2 : World),
           sessionStorage w2 !! "wildfireData" = entry ->
           (clock w2 + latency env2 (GeocodeRequest (geocodeQuery (address w2)))
            - storedAt < maxAge)%Z ->
           let w3 := snd (searchWildfires rev env2 w2) in
           sessionStorage w3 !! "wildfireData" = entry
           /\ (exists calls,
                  requests w3 = (requests w2 ++ calls)%list
                  /\ ~ In WildfireRequest calls)
           /\ forall loc2,
                isBlank (address w2) = false ->
                geocodeOutcome (geocodeReply env2 (geocodeQuery (address w2)))
                = Normal loc2 ->
                results w3 = firesWithDistance loc2 (fallbackFires rev)
                /\ requests w3
                   = (requests w2 ++ callsOnCacheHit rev (address w2))%list)
    /\ (forall (timerEnv env2 : Env) (w2 : World) (loc2 : Location),
           let cleared := snd (autoRefresh rev timerEnv w2) in
           sessionStorage cleared !! "wildfireData" = None
           /\ (isBlank (address w2) = false ->
               geocodeOutcome (geocodeReply env2 (geocodeQuery (address w2)))
               = Normal loc2 ->
               requests (snd (searchWildfires rev env2 cleared))
               = (requests w2
                  ++ GeocodeRequest (geocodeQuery (address w2))
                     :: WildfireRequest
                     :: match rev with
                        | RevHotspot => [HotspotRequest]
                        | RevList | RevMap => []
                        end)%list)).
Proof.
  intros rev env1 w loc1 Hb Hgeo Hmiss Hfail w1 storedAt entry.
  destruct (searchWildfires_degraded rev env1 w loc1 Hb Hgeo Hmiss Hfail)
    as (_ & _ & Hstore & _).
  fold w1 in Hstore. fold storedAt in Hstore. fold entry in Hstore.
  split; [exact Hstore|]. split; [intros address2 dt; exact Hstore|].
  split.
  - intros env2 w2 Hentry Hage w3.
    pose proof (searchWildfires_fresh_cache rev env2 w2 _ _ Hentry Hage)
      as [Hkept Hcalls].
    fold w3 in Hkept, Hcalls. split; [exact Hkept|]. split; [exact Hcalls|].
    intros loc2 Hb2 Hgeo2.
    destruct (searchWildfires_cache_hit rev env2 w2 loc2 (fallbackFires rev)
                storedAt Hb2 Hgeo2 Hentry Hage (fallbackFires_nonempty rev))
      as (Hres & _ & _ & Hreq).
    split; assumption.
  - intros timerEnv env2 w2 loc2 cleared. split.
    + apply autoRefresh_no_entry.
    + intros Hb2 Hgeo2. apply (search_after_autoRefresh _ _ _ _ _ Hb2 Hgeo2).
Qed.

End CachedFallback.

Lemma fallback_cached_and_reused_witness :
  sessionStorage
    (snd (searchWildfires (H := referenceHost) RevMap degradedEnv
            (typedWorld "St. John's")))
    !! "wildfireData"
  = Some (CacheItem (fallbackFires RevMap) 400)
  /\ requests
       (snd (searchWildfires (H := referenceHost) RevMap liveEnv
               (withAddress "Gander"
                  (elapse 300000
                     (snd (searchWildfires (H := referenceHost) RevMap
                             degradedEnv (typedWorld "St. John's")))))))
     = [GeocodeRequest (geocodeQuery "St. John's"); WildfireRequest;
        GeocodeRequest (geocodeQuery "Gander")]
  /\ requests
       (snd (searchWildfires (H := referenceHost) RevMap liveEnv
               (snd (autoRefresh RevMap liveEnv
                       (withAddress "Gander"
                          (elapse 300000
                             (snd (searchWildfires (H := referenceHost) RevMap
                                     degradedEnv
                                     (typedWorld "St. John's")))))))))
     = [GeocodeRequest (geocodeQuery "St. John's"); WildfireRequest;
        GeocodeRequest (geocodeQuery "Gander"); WildfireRequest].
Proof.
  destruct (fallback_cached_and_reused (H := referenceHost) RevMap degradedEnv
              (typedWorld "St. John's") stJohnsLocation)
    as (Hstored & Hidle & Hreuse & Htimer); try reflexivity.
  split; [exact Hstored|]. split.
  - destruct (Hreuse liveEnv
                (withAddress "Gander"
                   (elapse 300000
                      (snd (searchWildfires (H := referenceHost) RevMap
                              degradedEnv (typedWorld "St. John's"))))))
      as (_ & _ & Hshown); [exact (Hidle "Gander" 300000%Z)|reflexivity|].
    destruct (Hshown stJohnsLocation) as [_ Hcalls]; [reflexivity|reflexivity|].
    rewrite Hcalls. reflexivity.
  - destruct (Htimer liveEnv liveEnv
                (withAddress "Gander"
                   (elapse 300000
                      (snd (searchWildfires (H := referenceHost) RevMap
                              degradedEnv (typedWorld "St. John's")))))
                stJohnsLocation) as [_ Hcalls].
    rewrite Hcalls by reflexivity. reflexivity.
Defined.

(** The timer against the cache: the fallback is cached at 400 ms; five
    minutes later, well inside the ten minutes of the entry, the timer fires;
    the search that follows fetches again and shows the live records. *)
Lemma timer_clears_cached_fallback :
  sessionStorage
    (snd (searchWildfires (H := referenceHost) RevMap degradedEnv
            (typedWorld "St. John's")))
    !! "wildfireData"
  = Some (CacheItem (fallbackFires RevMap) 400)
  /\ (clock
        (snd (autoRefresh RevMap liveEnv
                (withAddress "Gander"
                   (elapse 300000
                      (snd (searchWildfires (H := referenceHost) RevMap
                              degradedEnv (typedWorld "St. John's")))))))
      + latency liveEnv (GeocodeRequest (geocodeQuery "Gander")) - 400
      <? maxAge)%Z = true
  /\ requests
       (snd (searchWildfires (H := referenceHost) RevMap liveEnv
               (snd (autoRefresh RevMap liveEnv
                       (withAddress "Gander"
                          (elapse 300000
                             (snd (searchWildfires (H := referenceHost) RevMap
                                     degradedEnv
                                     (typedWorld "St. John's")))))))))
     = [GeocodeRequest (geocodeQuery "St. John's"); WildfireRequest;
        GeocodeRequest (geocodeQuery "Gander"); WildfireRequest]
  /\ map (fun fire => prop fire "FIREID")
       (results
          (snd (searchWildfires (H := referenceHost) RevMap liveEnv
                  (snd (autoRefresh RevMap liveEnv
                          (withAddress "Gander"
                             (elapse 300000
                                (snd (searchWildfires (H := referenceHost)
                                        RevMap degradedEnv
                                        (typedWorld "St. John's"))))))))))
     = [JSString "F1"; JSString "F5"].
Proof. vm_compute. repeat split. Qed.
